(** * Chrome DevTools session controller ([chrome/cdp.js])

    A shallow embedding of [src/browser/provider/built-in/chrome/cdp.js]:
    tab resolution, control-channel set-up, device emulation and window
    resizing.  The external collaborators ([chrome-remote-interface] and
    [testcafe-browser-tools]) are represented by an oracle that answers
    every call from the history of the calls made so far; each call and
    its outcome are appended to a log, so that the order of the effects
    can be stated. *)

From Stdlib Require Import ZArith QArith List String Ascii Bool Lia.
Import ListNotations.

Local Open Scope string_scope.
Local Open Scope list_scope.
Local Open Scope Z_scope.

(** ** JavaScript values used by the module *)

Module Js.

(** Exceptions: a [TypeError] raised by the engine on a property access
    through [undefined], or a rejection produced by a collaborator. *)
Inductive Exn : Type :=
| TypeError (msg : string)
| Rejected (reason : string).

(** The values [isHeadlessTab] can return: [undefined] or a boolean. *)
Inductive Value : Type :=
| Undefined
| Boolean (b : bool).

(** ToBoolean on the values above. *)
Definition truthy (v : Value) : bool :=
  match v with
  | Undefined => false
  | Boolean b => b
  end.

(** [a || d] where [a] is a property holding a number or [undefined]
    and [d] is a number: [undefined] and [0] are falsy. *)
Definition or_num (a : option Z) (d : Z) : Z :=
  match a with
  | Some v => if v =? 0 then d else v
  | None => d
  end.

(** [hay.indexOf(needle)] from position [i]: the index of the first
    occurrence, or [-1]. *)
Fixpoint indexOfFrom (needle hay : string) (i : Z) : Z :=
  if String.prefix needle hay then i
  else match hay with
       | EmptyString => -1
       | String _ rest => indexOfFrom needle rest (i + 1)
       end.

Definition indexOf (hay needle : string) : Z := indexOfFrom needle hay 0.

End Js.

Import Js.

(** ** Data model *)

(** A target as listed by [remoteChrome.listTabs]. *)
Record Tab : Type := mkTab {
  tab_id   : string;
  tab_type : string;
  tab_url  : string
}.

(** The protocol client returned by [remoteChrome(...)], as a handle. *)
Definition Client : Type := nat.

Record Config : Type := mkConfig {
  cfg_width       : Z;
  cfg_height      : Z;
  cfg_headless    : bool;
  cfg_emulation   : bool;
  cfg_scaleFactor : Q;
  cfg_mobile      : bool;
  cfg_touch       : option bool;     (* [undefined] or a boolean *)
  cfg_userAgent   : option string    (* [undefined] or a string *)
}.

Record Size : Type := mkSize {
  vs_width  : Z;
  vs_height : Z
}.

(** The [newDimensions] argument of [resizeWindow]: either property may
    be missing. *)
Record Dimensions : Type := mkDimensions {
  nd_width  : option Z;
  nd_height : option Z
}.

(** The [runtimeInfo] object.  It is one mutable object shared by all the
    functions of the module, and [viewportSize] is one mutable object
    reached through it: an assignment to [viewportSize.width] inside
    [resizeWindow] is seen by [setEmulationBounds], which reads it again
    through [runtimeInfo].  The machine state below holds the single copy. *)
Record RuntimeInfo : Type := mkRuntimeInfo {
  browserId    : string;
  cdpPort      : Z;
  config       : Config;
  tab          : option Tab;
  client       : option Client;
  viewportSize : Size
}.

Definition set_tab (t : Tab) (r : RuntimeInfo) : RuntimeInfo :=
  mkRuntimeInfo (browserId r) (cdpPort r) (config r) (Some t) (client r)
                (viewportSize r).

Definition set_client (c : Client) (r : RuntimeInfo) : RuntimeInfo :=
  mkRuntimeInfo (browserId r) (cdpPort r) (config r) (tab r) (Some c)
                (viewportSize r).

Definition set_viewportSize (s : Size) (r : RuntimeInfo) : RuntimeInfo :=
  mkRuntimeInfo (browserId r) (cdpPort r) (config r) (tab r) (client r) s.

(** ** Calls to the collaborators *)

Inductive Call : Type :=
| ListTabs (port : Z)
| Connect (target : Tab) (port : Z)
| PageEnable (c : Client)
| NetworkEnable (c : Client)
| SetUserAgentOverride (c : Client) (userAgent : string)
| SetTouchEmulationEnabled (c : Client) (enabled : bool) (configuration : string)
| SetDeviceMetricsOverride (c : Client) (width height : Z)
    (deviceScaleFactor : Q) (mobile fitWindow : bool)
| SetVisibleSize (c : Client) (width height : Z)
| BrowserToolsResize (id : string) (currentWidth currentHeight width height : Z).

(** A logged call with its outcome: [true] when the promise resolved,
    [false] when it rejected. *)
Record Event : Type := mkEvent {
  ev_call : Call;
  ev_ok   : bool
}.

Definition resolved (c : Call) : Event := mkEvent c true.
Definition rejected (c : Call) : Event := mkEvent c false.

(** The collaborators: each answer may depend on everything that has
    happened before. *)
Record Oracle : Type := mkOracle {
  listTabs_reply : list Event -> Z -> Exn + list Tab;
  connect_reply  : list Event -> Tab -> Z -> Exn + Client;
  rpc_reply      : list Event -> Call -> option Exn   (* [None]: resolved *)
}.

(** ** The monad of the async functions

    A computation runs on the machine (the runtime object and the log) and
    completes normally or abruptly.  Mutations made before an exception
    is thrown remain. *)

Record Machine : Type := mkMachine {
  rt  : RuntimeInfo;
  log : list Event
}.

Inductive Completion (A : Type) : Type :=
| Normal (a : A)
| Throw (e : Exn).

Arguments Normal {A} a.
Arguments Throw {A} e.

Definition Async (A : Type) : Type := Machine -> Completion A * Machine.

Definition ret {A} (a : A) : Async A := fun m => (Normal a, m).

Definition throw {A} (e : Exn) : Async A := fun m => (Throw e, m).

Definition bind {A B} (c : Async A) (k : A -> Async B) : Async B :=
  fun m =>
    match c m with
    | (Normal a, m') => k a m'
    | (Throw e, m') => (Throw e, m')
    end.

(** [try c catch (e) h] *)
Definition try_catch {A} (c : Async A) (h : Exn -> Async A) : Async A :=
  fun m =>
    match c m with
    | (Normal a, m') => (Normal a, m')
    | (Throw e, m') => h e m'
    end.

Definition get_rt : Async RuntimeInfo := fun m => (Normal (rt m), m).

Definition modify_rt (f : RuntimeInfo -> RuntimeInfo) : Async unit :=
  fun m => (Normal tt, mkMachine (f (rt m)) (log m)).

Declare Scope async_scope.
Delimit Scope async_scope with async.
Notation "x <- c ;; k" := (bind c (fun x => k))
  (at level 61, c at next level, right associativity) : async_scope.
Notation "c ;; k" := (bind c (fun _ => k))
  (at level 61, right associativity) : async_scope.
Local Open Scope async_scope.

Definition undefined_property (p : string) : Exn :=
  TypeError ("Cannot read property '" ++ p ++ "' of undefined")%string.

Section Program.

Variable o : Oracle.

(** *** Awaited calls *)

Definition await_listTabs (port : Z) : Async (list Tab) :=
  fun m =>
    match listTabs_reply o (log m) port with
    | inr tabs => (Normal tabs,
                   mkMachine (rt m) (log m ++ [resolved (ListTabs port)]))
    | inl e => (Throw e,
                mkMachine (rt m) (log m ++ [rejected (ListTabs port)]))
    end.

Definition await_connect (target : Tab) (port : Z) : Async Client :=
  fun m =>
    match connect_reply o (log m) target port with
    | inr c => (Normal c,
                mkMachine (rt m) (log m ++ [resolved (Connect target port)]))
    | inl e => (Throw e,
                mkMachine (rt m) (log m ++ [rejected (Connect target port)]))
    end.

Definition await (c : Call) : Async unit :=
  fun m =>
    match rpc_reply o (log m) c with
    | None => (Normal tt, mkMachine (rt m) (log m ++ [resolved c]))
    | Some e => (Throw e, mkMachine (rt m) (log m ++ [rejected c]))
    end.

(** *** [getActiveTab] *)

Definition is_session_page (browserId : string) (t : Tab) : bool :=
  (tab_type t =? "page")%string && (indexOf (tab_url t) browserId >? -1).

(** [tabs.filter(...)[0]]: [None] stands for [undefined]. *)
Definition select_tab (browserId : string) (tabs : list Tab) : option Tab :=
  hd_error (filter (is_session_page browserId) tabs).

Definition getActiveTab (cdpPort : Z) (browserId : string)
  : Async (option Tab) :=
  tabs <- await_listTabs cdpPort ;;
  ret (select_tab browserId tabs).

(** *** [setEmulationBounds] *)

Definition setEmulationBounds : Async unit :=
  r <- get_rt ;;
  match client r with
  | None => throw (undefined_property "Emulation")
  | Some c =>
      await (SetDeviceMetricsOverride c
               (vs_width (viewportSize r)) (vs_height (viewportSize r))
               (cfg_scaleFactor (config r)) (cfg_mobile (config r)) false) ;;
      r' <- get_rt ;;
      await (SetVisibleSize c (vs_width (viewportSize r'))
               (vs_height (viewportSize r')))
  end.

(** *** [resizeWindow] *)

Definition resizeWindow (newDimensions : Dimensions) : Async unit :=
  r <- get_rt ;;
  let currentWidth  := vs_width (viewportSize r) in
  let currentHeight := vs_height (viewportSize r) in
  let newWidth      := or_num (nd_width newDimensions) currentWidth in
  let newHeight     := or_num (nd_height newDimensions) currentHeight in
  (if negb (cfg_headless (config r))
   then await (BrowserToolsResize (browserId r) currentWidth currentHeight
                 newWidth newHeight)
   else ret tt) ;;
  modify_rt (set_viewportSize (mkSize newWidth newHeight)) ;;
  (if cfg_emulation (config r) then setEmulationBounds else ret tt).

(** *** [setEmulation] *)

Definition setEmulation : Async unit :=
  r <- get_rt ;;
  let cfg := config r in
  (match cfg_userAgent cfg with
   | Some ua =>
       match client r with
       | Some c => await (SetUserAgentOverride c ua)
       | None => throw (undefined_property "Network")
       end
   | None => ret tt
   end) ;;
  (match cfg_touch cfg with
   | Some touch =>
       match client r with
       | Some c =>
           await (SetTouchEmulationEnabled c touch
                    (if cfg_mobile cfg then "mobile" else "desktop"))
       | None => throw (undefined_property "Emulation")
       end
   | None => ret tt
   end) ;;
  resizeWindow (mkDimensions (Some (cfg_width cfg)) (Some (cfg_height cfg))).

(** *** [createClient] *)

Definition createClient : Async unit :=
  r <- get_rt ;;
  t <- getActiveTab (cdpPort r) (browserId r) ;;
  match t with
  | None => ret tt
  | Some t =>
      c <- try_catch (c <- await_connect t (cdpPort r) ;; ret (Some c))
                     (fun _ => ret None) ;;
      match c with
      | None => ret tt
      | Some c =>
          modify_rt (set_tab t) ;;
          modify_rt (set_client c) ;;
          await (PageEnable c) ;;
          await (NetworkEnable c) ;;
          (if cfg_emulation (config r) then setEmulation else ret tt)
      end
  end.

End Program.

(** *** [isHeadlessTab]: [tab && config.headless] *)

Definition isHeadlessTab (r : RuntimeInfo) : Value :=
  match tab r with
  | None => Undefined
  | Some _ => Boolean (cfg_headless (config r))
  end.

(** ** Fixtures: scripted collaborators and sample sessions *)

(** A collaborator that always lists [tabs], always connects with client
    [c], and rejects exactly the calls selected by [fails]. *)
Definition scripted (tabs : list Tab) (c : Client) (fails : Call -> bool)
  : Oracle :=
  mkOracle (fun _ _ => inr tabs)
           (fun _ _ _ => inr c)
           (fun _ call => if fails call then Some (Rejected "call failed")
                          else None).

(** A collaborator whose connection attempt is refused. *)
Definition unreachable (tabs : list Tab) : Oracle :=
  mkOracle (fun _ _ => inr tabs)
           (fun _ _ _ => inl (Rejected "connect ECONNREFUSED"))
           (fun _ _ => None).

Definition never (_ : Call) : bool := false.

Definition is_os_resize (c : Call) : bool :=
  match c with BrowserToolsResize _ _ _ _ _ => true | _ => false end.

Definition is_device_metrics (c : Call) : bool :=
  match c with SetDeviceMetricsOverride _ _ _ _ _ _ => true | _ => false end.

Definition is_visible_size (c : Call) : bool :=
  match c with SetVisibleSize _ _ _ => true | _ => false end.

Definition is_page_enable (c : Call) : bool :=
  match c with PageEnable _ => true | _ => false end.

Definition is_network_enable (c : Call) : bool :=
  match c with NetworkEnable _ => true | _ => false end.

Definition is_emulation_call (c : Call) : bool :=
  match c with
  | SetUserAgentOverride _ _ | SetTouchEmulationEnabled _ _ _
  | SetDeviceMetricsOverride _ _ _ _ _ _ | SetVisibleSize _ _ _ => true
  | _ => false
  end.

Definition is_domain_enable (c : Call) : bool :=
  match c with PageEnable _ | NetworkEnable _ => true | _ => false end.

Definition worker_tab : Tab :=
  mkTab "W0" "service_worker" "http://localhost:1337/browser/connect/rJx7/sw.js".

Definition foreign_tab : Tab :=
  mkTab "P0" "page" "about:blank".

Definition session_tab : Tab :=
  mkTab "P1" "page" "http://localhost:1337/browser/connect/rJx7".

Definition late_tab : Tab :=
  mkTab "P2" "page" "http://localhost:1337/browser/connect/rJx7/idle".

Definition open_tabs : list Tab :=
  [worker_tab; foreign_tab; session_tab; late_tab].

Definition desktop_config : Config :=
  mkConfig 1024 768 false true 1%Q false None None.

Definition headless_config : Config :=
  mkConfig 1280 800 true true 2%Q true (Some true) (Some "Mozilla/5.0 (test)").

(** A session as the provider hands it to [createClient]: the viewport
    holds the dimensions measured in the page. *)
Definition fresh_session (cfg : Config) : RuntimeInfo :=
  mkRuntimeInfo "rJx7" 9222 cfg None None (mkSize 1296 1000).

Definition start (r : RuntimeInfo) : Machine := mkMachine r [].

(** The machine reached from [m] by running [c]. *)
Definition after {A} (c : Async A) (m : Machine) : Machine := snd (c m).

(** The events a run adds to the log. *)
Definition emitted {A} (c : Async A) (m : Machine) : list Event :=
  skipn (List.length (log m)) (log (after c m)).

Definition connected_session (cfg : Config) : RuntimeInfo :=
  mkRuntimeInfo "rJx7" 9222 cfg (Some session_tab) (Some 7%nat)
                (mkSize (cfg_width cfg) (cfg_height cfg)).

(** ** What the specification calls a matching page

    A page of the session: its type is "page" and its address contains
    the session marker as a substring. *)

Definition contains (hay needle : string) : Prop :=
  exists before rest, hay = (before ++ needle ++ rest)%string.

Definition session_page (marker : string) (t : Tab) : Prop :=
  tab_type t = "page" /\ contains (tab_url t) marker.

(** The first element of [l], in order, that satisfies [P]. *)
Definition first_such {A} (P : A -> Prop) (l : list A) (x : A) : Prop :=
  exists pre post, l = pre ++ x :: post /\ P x /\ forall y, In y pre -> ~ P y.

(** ** Abbreviations for the calls made by [resizeWindow] *)

(** The dimensions [resizeWindow] computes: [newDimensions.width ||
    currentWidth] and [newDimensions.height || currentHeight]. *)
Definition target_size (nd : Dimensions) (r : RuntimeInfo) : Size :=
  mkSize (or_num (nd_width nd) (vs_width (viewportSize r)))
         (or_num (nd_height nd) (vs_height (viewportSize r))).

Definition os_resize_call (nd : Dimensions) (r : RuntimeInfo) : Call :=
  BrowserToolsResize (browserId r)
    (vs_width (viewportSize r)) (vs_height (viewportSize r))
    (vs_width (target_size nd r)) (vs_height (target_size nd r)).

Definition device_metrics_call (c : Client) (r : RuntimeInfo) : Call :=
  SetDeviceMetricsOverride c
    (vs_width (viewportSize r)) (vs_height (viewportSize r))
    (cfg_scaleFactor (config r)) (cfg_mobile (config r)) false.

Definition visible_size_call (c : Client) (r : RuntimeInfo) : Call :=
  SetVisibleSize c (vs_width (viewportSize r)) (vs_height (viewportSize r)).

(** The machine on which [resizeWindow] reaches its last statement: the
    window-manager call, if any, has resolved and [viewportSize] holds the
    new dimensions. *)
Definition resized (nd : Dimensions) (m : Machine) : Machine :=
  mkMachine (set_viewportSize (target_size nd (rt m)) (rt m))
            (if cfg_headless (config (rt m)) then log m
             else log m ++ [resolved (os_resize_call nd (rt m))]).

(** No collaborator call is ever rejected. *)
Definition cooperative (o : Oracle) : Prop :=
  forall h call, rpc_reply o h call = None.

(** ** Abbreviations for the stages of [createClient] *)

Definition listed (m : Machine) : list Event :=
  log m ++ [resolved (ListTabs (cdpPort (rt m)))].

Definition negotiated (t : Tab) (m : Machine) : list Event :=
  listed m ++ [resolved (Connect t (cdpPort (rt m)))].

(** The machine right after [runtimeInfo.tab] and [runtimeInfo.client]
    have been assigned. *)
Definition recorded (t : Tab) (c : Client) (m : Machine) : Machine :=
  mkMachine (set_client c (set_tab t (rt m))) (negotiated t m).

(** What [createClient] does once the channel is recorded. *)
Definition enable_and_emulate (o : Oracle) (c : Client) (emulation : bool)
  : Async unit :=
  bind (await o (PageEnable c)) (fun _ =>
  bind (await o (NetworkEnable c)) (fun _ =>
  if emulation then setEmulation o else ret tt)).

(** ** Frame conditions *)

(** [r'] is the runtime object [r] up to its [viewportSize]. *)
Definition same_session (r r' : RuntimeInfo) : Prop :=
  browserId r' = browserId r /\ cdpPort r' = cdpPort r
  /\ config r' = config r /\ tab r' = tab r /\ client r' = client r.

(** [m'] is reached from [m] by steps that only resize the viewport and
    append to the log. *)
Definition extends (m m' : Machine) : Prop :=
  same_session (rt m) (rt m') /\ exists es, log m' = log m ++ es.

Definition stable {A} (c : Async A) : Prop :=
  forall m, extends m (after c m).

(** ** Capture and teardown: [closeTab] and [takeScreenshot]

    These two functions only read the runtime object, so they run on a
    log of their own: the calls to [remoteChrome.closeTab], to
    [client.Page.captureScreenshot] and to the promisified [writeFile]. *)

Inductive IoCall : Type :=
| CloseTab (id : string) (port : Z)
| CaptureScreenshot (c : Client) (fromSurface : bool)
| WriteFile (path data encoding : string).

Record IoEvent : Type := mkIoEvent {
  io_call : IoCall;
  io_ok   : bool
}.

(** [captureScreenshot_reply] gives the [data] property of the result. *)
Record IoOracle : Type := mkIoOracle {
  closeTab_reply          : list IoEvent -> string -> Z -> option Exn;
  captureScreenshot_reply : list IoEvent -> Client -> bool -> Exn + string;
  writeFile_reply         : list IoEvent -> string -> string -> string
                            -> option Exn
}.

Definition Io (A : Type) : Type := list IoEvent -> Completion A * list IoEvent.

Definition closeTab (io : IoOracle) (r : RuntimeInfo) : Io unit :=
  fun l =>
    match tab r with
    | None => (Throw (undefined_property "id"), l)
    | Some t =>
        match closeTab_reply io l (tab_id t) (cdpPort r) with
        | None =>
            (Normal tt, l ++ [mkIoEvent (CloseTab (tab_id t) (cdpPort r)) true])
        | Some e =>
            (Throw e, l ++ [mkIoEvent (CloseTab (tab_id t) (cdpPort r)) false])
        end
    end.


(** A capture and file-system collaborator with fixed answers. *)
Definition io_scripted (close : option Exn) (capture : Exn + string)
           (write : option Exn) : IoOracle :=
  mkIoOracle (fun _ _ _ => close) (fun _ _ _ => capture)
             (fun _ _ _ _ => write).

(** ** A small program logic

    [leads P Q c]: from a machine satisfying [P], the computation [c]
    ends, normally or not, in a machine satisfying [Q]. *)

Definition leads {A} (P Q : Machine -> Prop) (c : Async A) : Prop :=
  forall m, P m -> Q (after c m).

(** The runtime object satisfies [I] and every call logged since [base]
    is [allowed]. *)
Definition tracked (I : RuntimeInfo -> Prop) (allowed : Call -> Prop)
           (base : list Event) (m : Machine) : Prop :=
  I (rt m)
  /\ exists es, log m = base ++ es
                /\ Forall (fun ev => allowed (ev_call ev)) es.

Definition tracked_at (I : RuntimeInfo -> Prop) (allowed : Call -> Prop)
           (base : list Event) (r : RuntimeInfo) (m : Machine) : Prop :=
  tracked I allowed base m /\ rt m = r.

(** What [resizeWindow newDimensions] must be allowed to do in state [r]. *)
Definition resize_respects (I : RuntimeInfo -> Prop) (allowed : Call -> Prop)
           (nd : Dimensions) (r : RuntimeInfo) : Prop :=
  I (set_viewportSize (target_size nd r) r)
  /\ (cfg_headless (config r) = false -> allowed (os_resize_call nd r))
  /\ (forall c, cfg_emulation (config r) = true -> client r = Some c ->
                allowed (device_metrics_call c
                           (set_viewportSize (target_size nd r) r))
                /\ allowed (visible_size_call c
                              (set_viewportSize (target_size nd r) r))).

(** The [newDimensions] that [setEmulation] passes to [resizeWindow]. *)
Definition config_dimensions (cfg : Config) : Dimensions :=
  mkDimensions (Some (cfg_width cfg)) (Some (cfg_height cfg)).

(** What [setEmulation] must be allowed to do in state [r]. *)
Definition emulation_respects (I : RuntimeInfo -> Prop)
           (allowed : Call -> Prop) (r : RuntimeInfo) : Prop :=
  (forall c ua, client r = Some c -> cfg_userAgent (config r) = Some ua ->
                allowed (SetUserAgentOverride c ua))
  /\ (forall c touch, client r = Some c -> cfg_touch (config r) = Some touch ->
                      allowed (SetTouchEmulationEnabled c touch
                                 (if cfg_mobile (config r) then "mobile"
                                  else "desktop")))
  /\ resize_respects I allowed (config_dimensions (config r)) r.

(** What [createClient] must be allowed to do. *)
Definition connect_respects (I : RuntimeInfo -> Prop)
           (allowed : Call -> Prop) : Prop :=
  (forall r, I r -> allowed (ListTabs (cdpPort r)))
  /\ (forall r t, I r -> allowed (Connect t (cdpPort r)))
  /\ (forall r t c, I r -> I (set_client c (set_tab t r)))
  /\ (forall c, allowed (PageEnable c) /\ allowed (NetworkEnable c))
  /\ (forall r, I r -> cfg_emulation (config r) = true ->
                emulation_respects I allowed r).

(** The parameters of an emulation call are those of the configuration. *)
Definition configured_call (cfg : Config) (c : Call) : Prop :=
  match c with
  | SetUserAgentOverride _ ua => cfg_userAgent cfg = Some ua
  | SetTouchEmulationEnabled _ enabled configuration =>
      cfg_touch cfg = Some enabled
      /\ configuration = (if cfg_mobile cfg then "mobile" else "desktop")
  | SetDeviceMetricsOverride _ _ _ scale mobile fitWindow =>
      scale = cfg_scaleFactor cfg /\ mobile = cfg_mobile cfg
      /\ fitWindow = false
  | _ => True
  end.

(** The calls of one [resizeWindow], in program order. *)
Definition resize_script (nd : Dimensions) (r : RuntimeInfo) : list Call :=
  (if cfg_headless (config r) then [] else [os_resize_call nd r])
  ++ (if cfg_emulation (config r)
      then match client r with
           | Some c =>
               [device_metrics_call c (set_viewportSize (target_size nd r) r);
                visible_size_call c (set_viewportSize (target_size nd r) r)]
           | None => []
           end
      else []).

(** The calls of one [setEmulation] before it resizes. *)
Definition emulation_preamble (c : Client) (cfg : Config) : list Call :=
  match cfg_userAgent cfg with
  | Some ua => [SetUserAgentOverride c ua]
  | None => []
  end
  ++ match cfg_touch cfg with
     | Some touch =>
         [SetTouchEmulationEnabled c touch
            (if cfg_mobile cfg then "mobile" else "desktop")]
     | None => []
     end.


Definition nonzero (s : Size) : Prop := vs_width s <> 0 /\ vs_height s <> 0.

Definition is_page_type (t : Tab) : bool := (tab_type t =? "page")%string.

(** ** Strings *)

Lemma prefix_iff (p s : string) :
  String.prefix p s = true <-> exists r, s = (p ++ r)%string.
Proof.
  revert s; induction p as [|a p IH]; intros s; cbn.
  - destruct s; split; intros; eauto.
  - destruct s as [|b s]; cbn.
    + split; [discriminate | intros [r Hr]; discriminate].
    + destruct (ascii_dec a b) as [->|Hab].
      * rewrite IH. split; intros [r Hr]; exists r; congruence.
      * split; [discriminate | intros [r Hr]; congruence].
Qed.

Lemma indexOfFrom_range (needle hay : string) (i : Z) :
  0 <= i -> indexOfFrom needle hay i = -1 \/ i <= indexOfFrom needle hay i.
Proof.
  revert i; induction hay as [|ch hay IH]; intros i Hi; cbn [indexOfFrom].
  - destruct (String.prefix needle ""); [right; lia | now left].
  - destruct (String.prefix needle (String ch hay)); [right; lia|].
    destruct (IH (i + 1)) as [H|H]; [lia | now left | right; lia].
Qed.

Lemma indexOfFrom_found (needle hay : string) (i : Z) :
  0 <= i -> (indexOfFrom needle hay i > -1 <-> contains hay needle).
Proof.
  revert i; induction hay as [|ch hay IH]; intros i Hi; cbn [indexOfFrom].
  - destruct (String.prefix needle "") eqn:Hp.
    + split; [intros _ | lia].
      apply prefix_iff in Hp as [r Hr]. now exists ""%string, r.
    + split; [lia|]. intros ([|b before] & rest & H); cbn in H.
      * assert (String.prefix needle "" = true) by (apply prefix_iff; eauto).
        congruence.
      * discriminate.
  - destruct (String.prefix needle (String ch hay)) eqn:Hp.
    + split; [intros _ | lia].
      apply prefix_iff in Hp as [r Hr]. now exists ""%string, r.
    + rewrite (IH (i + 1)) by lia.
      split.
      * intros (before & rest & H). exists (String ch before), rest.
        cbn. now rewrite H.
      * intros ([|b before] & rest & H); cbn in H.
        -- assert (String.prefix needle (String ch hay) = true)
             by (apply prefix_iff; eauto).
           congruence.
        -- injection H as _ H. now exists before, rest.
Qed.

Lemma indexOf_found (hay needle : string) :
  indexOf hay needle > -1 <-> contains hay needle.
Proof. apply indexOfFrom_found; lia. Qed.

Lemma is_session_page_iff (marker : string) (t : Tab) :
  is_session_page marker t = true <-> session_page marker t.
Proof.
  unfold is_session_page, session_page.
  rewrite andb_true_iff, String.eqb_eq, <- indexOf_found.
  rewrite Z.gtb_gt. intuition lia.
Qed.

(** ** Lists: the head of a filtered list *)

Section FilterHead.

Context {A : Type} (p : A -> bool).

Lemma hd_filter_none (l : list A) :
  hd_error (filter p l) = None <-> forall x, In x l -> p x = false.
Proof.
  induction l as [|a l IH]; cbn.
  - split; [intros _ x [] | reflexivity].
  - destruct (p a) eqn:Ha; cbn.
    + split; [discriminate|]. intros H. specialize (H a (or_introl eq_refl)).
      congruence.
    + rewrite IH. split.
      * intros H x [<-|Hx]; auto.
      * intros H x Hx. apply H. now right.
Qed.

Lemma hd_filter_some (l : list A) (x : A) :
  hd_error (filter p l) = Some x <->
  first_such (fun y => p y = true) l x.
Proof.
  unfold first_such. induction l as [|a l IH]; cbn.
  - split; [discriminate|]. intros (pre & post & H & _).
    destruct pre; discriminate.
  - destruct (p a) eqn:Ha; cbn.
    + split.
      * intros [= <-]. exists [], l. repeat split; auto.
      * intros ([|b pre] & post & H & Hx & Hpre); cbn in H.
        -- congruence.
        -- injection H as <- _. exfalso.
           apply (Hpre a); [now left | assumption].
    + rewrite IH. split.
      * intros (pre & post & -> & Hx & Hpre). exists (a :: pre), post.
        repeat split; auto. intros y [<-|Hy]; [congruence | auto].
      * intros ([|b pre] & post & H & Hx & Hpre); cbn in H.
        -- congruence.
        -- injection H as <- ->. exists pre, post.
           repeat split; auto. intros y Hy. apply Hpre. now right.
Qed.

End FilterHead.

(** ** Tab resolution *)

Lemma select_tab_none (marker : string) (tabs : list Tab) :
  select_tab marker tabs = None <->
  forall t, In t tabs -> ~ session_page marker t.
Proof.
  unfold select_tab. rewrite hd_filter_none.
  split; intros H t Ht; specialize (H t Ht).
  - rewrite <- is_session_page_iff. congruence.
  - rewrite <- is_session_page_iff in H.
    now destruct (is_session_page marker t).
Qed.

Lemma select_tab_some (marker : string) (tabs : list Tab) (t : Tab) :
  select_tab marker tabs = Some t <->
  first_such (session_page marker) tabs t.
Proof.
  unfold select_tab. rewrite hd_filter_some. unfold first_such.
  split; intros (pre & post & -> & Ht & Hpre); exists pre, post;
    (split; [reflexivity|]); split.
  - now apply is_session_page_iff.
  - intros y Hy. rewrite <- is_session_page_iff. apply Hpre in Hy. congruence.
  - now apply is_session_page_iff.
  - intros y Hy Hp. apply (Hpre y Hy). now apply is_session_page_iff.
Qed.

(** C7.  On a fixed page list, [getActiveTab] resolves (it does not
    raise) with a value that depends on the list and the marker only: the
    first page, in listing order, whose type is "page" and whose address
    contains the marker; and with [undefined] exactly when no listed page
    matches, in particular on the empty list. *)
Theorem getActiveTab_first_match
  (o : Oracle) (m : Machine) (port : Z) (marker : string) (tabs : list Tab) :
  listTabs_reply o (log m) port = inr tabs ->
  getActiveTab o port marker m =
    (Normal (select_tab marker tabs),
     mkMachine (rt m) (log m ++ [resolved (ListTabs port)]))
  /\ (forall t, select_tab marker tabs = Some t <->
                first_such (session_page marker) tabs t)
  /\ (select_tab marker tabs = None <->
      forall t, In t tabs -> ~ session_page marker t)
  /\ select_tab marker [] = None.
Proof.
  intros Hreply. repeat split.
  - unfold getActiveTab, bind, await_listTabs, ret. now rewrite Hreply.
  - apply select_tab_some.
  - apply select_tab_some.
  - apply select_tab_none.
  - apply select_tab_none.
Qed.

Lemma getActiveTab_first_match_witness :
  getActiveTab (scripted open_tabs 7%nat never) 9222 "rJx7"
               (start (fresh_session desktop_config)) =
    (Normal (Some session_tab),
     mkMachine (fresh_session desktop_config) [resolved (ListTabs 9222)])
  /\ first_such (session_page "rJx7") open_tabs session_tab.
Proof.
  destruct (getActiveTab_first_match (scripted open_tabs 7%nat never)
              (start (fresh_session desktop_config)) 9222 "rJx7" open_tabs
              eq_refl) as (Hrun & Hsome & _).
  split.
  - exact Hrun.
  - apply Hsome. reflexivity.
Defined.

(** ** The headless predicate *)

(** C9, as amended.  [isHeadlessTab] is a function of the tab and the
    configuration alone.  It returns [true] exactly when a tab is set
    and [config.headless] is [true], and [false] when a tab is set and
    [config.headless] is [false]; when no tab is set it returns
    [undefined], which is falsy but is not the boolean [false]. *)
Theorem isHeadlessTab_value (r : RuntimeInfo) :
  (isHeadlessTab r = Boolean true <->
   (exists t, tab r = Some t) /\ cfg_headless (config r) = true)
  /\ (truthy (isHeadlessTab r) = true <->
      (exists t, tab r = Some t) /\ cfg_headless (config r) = true)
  /\ (isHeadlessTab r = Boolean false <->
      (exists t, tab r = Some t) /\ cfg_headless (config r) = false)
  /\ (isHeadlessTab r = Undefined <-> tab r = None).
Proof.
  unfold isHeadlessTab.
  destruct (tab r) as [t|], (cfg_headless (config r)); cbn;
    (split; [|split; [|split]]); split; intros Hyp;
    try discriminate; try reflexivity; eauto;
    destruct Hyp as [[t' Ht'] Hh]; discriminate.
Qed.

(** With no tab resolved the result is [undefined], not [false]. *)
Lemma isHeadlessTab_unresolved_counterexample :
  tab (fresh_session headless_config) = None
  /\ isHeadlessTab (fresh_session headless_config) <> Boolean false.
Proof. split; [reflexivity | discriminate]. Qed.

(** ** Running the monad *)

Ltac run :=
  unfold createClient, setEmulation, resizeWindow, setEmulationBounds,
    getActiveTab, try_catch, bind, get_rt, modify_rt, ret, throw, await,
    await_listTabs, await_connect, after; cbn.

Lemma emitted_app {A} (c : Async A) (m : Machine) (es : list Event) :
  log (after c m) = log m ++ es -> emitted c m = es.
Proof.
  unfold emitted. intros ->.
  rewrite skipn_app, skipn_all, Nat.sub_diag. reflexivity.
Qed.

Lemma await_resolved (o : Oracle) (c : Call) (m : Machine) :
  rpc_reply o (log m) c = None ->
  await o c m = (Normal tt, mkMachine (rt m) (log m ++ [resolved c])).
Proof. unfold await. now intros ->. Qed.

Lemma await_rejected (o : Oracle) (c : Call) (m : Machine) (e : Exn) :
  rpc_reply o (log m) c = Some e ->
  await o c m = (Throw e, mkMachine (rt m) (log m ++ [rejected c])).
Proof. unfold await. now intros ->. Qed.

(** ** [setEmulationBounds] *)

(** The bounds routine never writes to the runtime object, and whatever
    it sends is an emulation override. *)
Lemma setEmulationBounds_frame (o : Oracle) (m : Machine) :
  rt (after (setEmulationBounds o) m) = rt m
  /\ exists es, log (after (setEmulationBounds o) m) = log m ++ es
                /\ Forall (fun ev => is_emulation_call (ev_call ev) = true) es.
Proof.
  run. destruct (client (rt m)) as [c|]; cbn.
  - destruct (rpc_reply o (log m) _); cbn.
    + split; [reflexivity|]. eexists; split; [reflexivity|].
      repeat constructor.
    + destruct (rpc_reply o _ _); cbn; (split; [reflexivity|]);
        rewrite <- app_assoc; eexists; (split; [reflexivity|]);
        repeat constructor.
  - split; [reflexivity|]. exists []. rewrite app_nil_r. now split.
Qed.

(** With a client, the device-metrics override is the first thing sent. *)
Lemma setEmulationBounds_first (o : Oracle) (m : Machine) (c : Client) :
  client (rt m) = Some c ->
  exists ok rest,
    log (after (setEmulationBounds o) m) =
    log m ++ mkEvent (device_metrics_call c (rt m)) ok :: rest.
Proof.
  intros Hc. run. rewrite Hc; cbn. fold (device_metrics_call c (rt m)).
  destruct (rpc_reply o (log m) _); cbn.
  - now exists false, [].
  - destruct (rpc_reply o _ _); cbn; rewrite <- app_assoc; cbn;
      eexists; eexists; reflexivity.
Qed.

Lemma setEmulationBounds_resolved (o : Oracle) (m : Machine) (c : Client) :
  cooperative o ->
  client (rt m) = Some c ->
  setEmulationBounds o m =
    (Normal tt,
     mkMachine (rt m)
       (log m ++ [resolved (device_metrics_call c (rt m));
                  resolved (visible_size_call c (rt m))])).
Proof.
  intros Hco Hc. run. rewrite Hc; cbn. rewrite !Hco; cbn.
  now rewrite <- app_assoc.
Qed.

(** ** [resizeWindow] *)

(** A rejected window-manager call ends [resizeWindow] at once. *)
Lemma resizeWindow_os_rejected
  (o : Oracle) (nd : Dimensions) (m : Machine) (e : Exn) :
  cfg_headless (config (rt m)) = false ->
  rpc_reply o (log m) (os_resize_call nd (rt m)) = Some e ->
  resizeWindow o nd m =
    (Throw e,
     mkMachine (rt m) (log m ++ [rejected (os_resize_call nd (rt m))])).
Proof.
  intros Hh Hr. run. rewrite Hh; cbn.
  unfold os_resize_call, target_size in Hr; cbn in Hr. now rewrite Hr.
Qed.

(** Otherwise [viewportSize] is assigned and the emulation step decides
    the outcome. *)
Lemma resizeWindow_past_os (o : Oracle) (nd : Dimensions) (m : Machine) :
  (cfg_headless (config (rt m)) = false ->
   rpc_reply o (log m) (os_resize_call nd (rt m)) = None) ->
  resizeWindow o nd m =
    (if cfg_emulation (config (rt m)) then setEmulationBounds o else ret tt)
      (resized nd m).
Proof.
  intros Hr. unfold resized.
  unfold resizeWindow, bind, get_rt, modify_rt; cbn.
  destruct (cfg_headless (config (rt m))); cbn.
  - reflexivity.
  - specialize (Hr eq_refl).
    unfold os_resize_call, target_size in Hr; cbn in Hr.
    unfold await. rewrite Hr. reflexivity.
Qed.

Lemma resizeWindow_viewport (o : Oracle) (nd : Dimensions) (m : Machine) :
  (cfg_headless (config (rt m)) = false ->
   rpc_reply o (log m) (os_resize_call nd (rt m)) = None) ->
  rt (after (resizeWindow o nd) m) =
    set_viewportSize (target_size nd (rt m)) (rt m).
Proof.
  intros Hr. unfold after at 1. rewrite (resizeWindow_past_os o nd m Hr).
  destruct (cfg_emulation (config (rt m))).
  - apply (setEmulationBounds_frame o (resized nd m)).
  - reflexivity.
Qed.

Lemma resized_headless_log (nd : Dimensions) (m : Machine) :
  cfg_headless (config (rt m)) = true -> log (resized nd m) = log m.
Proof. unfold resized. now intros ->. Qed.

Lemma emulation_call_not_os_resize (c : Call) :
  is_emulation_call c = true -> is_os_resize c = false.
Proof. now destruct c. Qed.

(** C2, as amended.  On a session that is not headless and has emulation
    enabled, a window-manager call that raises ends [resizeWindow]: the
    exception reaches the caller, the runtime object (and so
    [viewportSize]) is left as it was, and the rejected call is the only
    one made, so no emulation override is attempted. *)
Theorem os_resize_failure_aborts
  (o : Oracle) (nd : Dimensions) (m : Machine) (e : Exn) :
  cfg_headless (config (rt m)) = false ->
  cfg_emulation (config (rt m)) = true ->
  rpc_reply o (log m) (os_resize_call nd (rt m)) = Some e ->
  fst (resizeWindow o nd m) = Throw e
  /\ rt (after (resizeWindow o nd) m) = rt m
  /\ emitted (resizeWindow o nd) m = [rejected (os_resize_call nd (rt m))].
Proof.
  intros Hh _ Hr.
  pose proof (resizeWindow_os_rejected o nd m e Hh Hr) as Hrun.
  repeat split.
  - now rewrite Hrun.
  - unfold after. now rewrite Hrun.
  - apply emitted_app. unfold after. now rewrite Hrun.
Qed.

Lemma os_resize_failure_aborts_witness :
  fst (resizeWindow (scripted open_tabs 7%nat is_os_resize)
         (mkDimensions (Some 800) None)
         (start (connected_session desktop_config)))
    = Throw (Rejected "call failed")
  /\ rt (after (resizeWindow (scripted open_tabs 7%nat is_os_resize)
                  (mkDimensions (Some 800) None))
           (start (connected_session desktop_config)))
     = connected_session desktop_config
  /\ emitted (resizeWindow (scripted open_tabs 7%nat is_os_resize)
                (mkDimensions (Some 800) None))
       (start (connected_session desktop_config))
     = [rejected (BrowserToolsResize "rJx7" 1024 768 800 768)].
Proof.
  apply (os_resize_failure_aborts (scripted open_tabs 7%nat is_os_resize)
           (mkDimensions (Some 800) None)
           (start (connected_session desktop_config))
           (Rejected "call failed")); reflexivity.
Defined.

(** The window-manager call raises, and neither is [viewportSize] updated
    nor is a device-metrics override attempted. *)
Lemma os_resize_failure_counterexample :
  let o := scripted open_tabs 7%nat is_os_resize in
  let nd := mkDimensions (Some 800) None in
  let m := start (connected_session desktop_config) in
  cfg_headless (config (rt m)) = false
  /\ cfg_emulation (config (rt m)) = true
  /\ rpc_reply o (log m) (BrowserToolsResize "rJx7" 1024 768 800 768)
     = Some (Rejected "call failed")
  /\ viewportSize (rt (after (resizeWindow o nd) m)) = mkSize 1024 768
  /\ viewportSize (rt (after (resizeWindow o nd) m)) <> mkSize 800 768
  /\ ~ (exists ev, In ev (emitted (resizeWindow o nd) m)
                   /\ is_emulation_call (ev_call ev) = true).
Proof.
  cbv zeta. repeat split; try reflexivity.
  - discriminate.
  - intros (ev & Hin & Hcall). vm_compute in Hin.
    destruct Hin as [<-|[]]. discriminate.
Qed.

(** C3, as amended.  Whenever [resizeWindow] raises, one of two things
    has happened.  Either the window-manager call is what failed, and the
    runtime object is untouched; or that call was skipped or had
    succeeded, emulation is enabled and the failure comes from the
    emulation step, and then [viewportSize] already holds the new
    dimensions and keeps them: it is not rolled back. *)
Theorem viewport_when_resize_raises
  (o : Oracle) (nd : Dimensions) (m : Machine) (e : Exn) :
  fst (resizeWindow o nd m) = Throw e ->
  (cfg_headless (config (rt m)) = false
   /\ rpc_reply o (log m) (os_resize_call nd (rt m)) = Some e
   /\ rt (after (resizeWindow o nd) m) = rt m)
  \/ ((cfg_headless (config (rt m)) = false ->
       rpc_reply o (log m) (os_resize_call nd (rt m)) = None)
      /\ cfg_emulation (config (rt m)) = true
      /\ viewportSize (rt (after (resizeWindow o nd) m))
         = target_size nd (rt m)).
Proof.
  intros Hthrow.
  destruct (cfg_headless (config (rt m))) eqn:Hh.
  - right.
    assert (Hos : cfg_headless (config (rt m)) = false ->
                  rpc_reply o (log m) (os_resize_call nd (rt m)) = None)
      by congruence.
    pose proof (resizeWindow_past_os o nd m Hos) as Hrun.
    pose proof (resizeWindow_viewport o nd m Hos) as Hvp.
    rewrite Hh in Hos. split; [exact Hos|].
    destruct (cfg_emulation (config (rt m))).
    + split; [reflexivity|]. now rewrite Hvp.
    + rewrite Hrun in Hthrow. discriminate.
  - destruct (rpc_reply o (log m) (os_resize_call nd (rt m))) as [e'|] eqn:Hr.
    + left.
      pose proof (resizeWindow_os_rejected o nd m e' Hh Hr) as Hrun.
      rewrite Hrun in Hthrow. cbn in Hthrow. injection Hthrow as ->.
      repeat split. unfold after. now rewrite Hrun.
    + right.
      assert (Hos : cfg_headless (config (rt m)) = false ->
                    rpc_reply o (log m) (os_resize_call nd (rt m)) = None)
        by (intros _; exact Hr).
      pose proof (resizeWindow_past_os o nd m Hos) as Hrun.
      pose proof (resizeWindow_viewport o nd m Hos) as Hvp.
      split; [intros _; reflexivity|].
      destruct (cfg_emulation (config (rt m))).
      * split; [reflexivity|]. now rewrite Hvp.
      * rewrite Hrun in Hthrow. discriminate.
Qed.

Lemma viewport_when_resize_raises_witness :
  viewportSize
    (rt (after (resizeWindow (scripted open_tabs 7%nat is_visible_size)
                  (mkDimensions None (Some 600)))
           (start (connected_session headless_config))))
  = mkSize 1280 600.
Proof.
  destruct (viewport_when_resize_raises
              (scripted open_tabs 7%nat is_visible_size)
              (mkDimensions None (Some 600))
              (start (connected_session headless_config))
              (Rejected "call failed") eq_refl)
    as [(Hh & _)|(_ & _ & Hvp)].
  - discriminate Hh.
  - exact Hvp.
Defined.

(** The device-metrics override is rejected after the window manager has
    resized the window: [resizeWindow] raises, yet [viewportSize] has
    moved from 1024x768 to 800x768. *)
Lemma failed_emulation_push_counterexample :
  let o := scripted open_tabs 7%nat is_device_metrics in
  let nd := mkDimensions (Some 800) None in
  let m := start (connected_session desktop_config) in
  fst (resizeWindow o nd m) = Throw (Rejected "call failed")
  /\ emitted (resizeWindow o nd) m
     = [resolved (BrowserToolsResize "rJx7" 1024 768 800 768);
        rejected (SetDeviceMetricsOverride 7%nat 800 768 1%Q false false)]
  /\ viewportSize (rt m) = mkSize 1024 768
  /\ viewportSize (rt (after (resizeWindow o nd) m)) = mkSize 800 768
  /\ viewportSize (rt (after (resizeWindow o nd) m)) <> viewportSize (rt m).
Proof. cbv zeta. repeat split; try reflexivity. discriminate. Qed.

Lemma or_num_nonzero (v d : Z) : v <> 0 -> or_num (Some v) d = v.
Proof. intros Hv. cbn. now destruct (Z.eqb_spec v 0). Qed.

(** C6, as amended.  On a session that is not headless and has emulation
    enabled, when the window-manager call does not raise,
    [resizeWindow({width: w})] with [w] other than 0 sets
    [viewportSize.width] to [w] and leaves [viewportSize.height] as it
    was.  More generally a dimension that is omitted keeps the current
    [viewportSize] value, and so does one given as 0; a dimension other
    than 0 replaces it. *)
Theorem resize_partial_update (o : Oracle) (m : Machine) (w : Z) :
  cfg_headless (config (rt m)) = false ->
  cfg_emulation (config (rt m)) = true ->
  w <> 0 ->
  rpc_reply o (log m)
    (BrowserToolsResize (browserId (rt m))
       (vs_width (viewportSize (rt m))) (vs_height (viewportSize (rt m)))
       w (vs_height (viewportSize (rt m)))) = None ->
  viewportSize (rt (after (resizeWindow o (mkDimensions (Some w) None)) m))
    = mkSize w (vs_height (viewportSize (rt m)))
  /\ forall nd : Dimensions,
       rpc_reply o (log m) (os_resize_call nd (rt m)) = None ->
       let size' := viewportSize (rt (after (resizeWindow o nd) m)) in
       (nd_width nd = None \/ nd_width nd = Some 0 ->
        vs_width size' = vs_width (viewportSize (rt m)))
       /\ (nd_height nd = None \/ nd_height nd = Some 0 ->
           vs_height size' = vs_height (viewportSize (rt m)))
       /\ (forall v, nd_width nd = Some v -> v <> 0 -> vs_width size' = v)
       /\ (forall v, nd_height nd = Some v -> v <> 0 -> vs_height size' = v).
Proof.
  intros Hh _ Hw Hr. split.
  - rewrite resizeWindow_viewport.
    + unfold target_size; cbn. now destruct (Z.eqb_spec w 0).
    + intros _. unfold os_resize_call, target_size. cbn.
      now destruct (Z.eqb_spec w 0).
  - intros nd Hnd size'. subst size'.
    rewrite (resizeWindow_viewport o nd m (fun _ => Hnd)).
    unfold target_size; cbn.
    repeat split.
    + now intros [-> | ->].
    + now intros [-> | ->].
    + intros v -> Hv. now apply or_num_nonzero.
    + intros v -> Hv. now apply or_num_nonzero.
Qed.

Lemma resize_partial_update_witness :
  viewportSize
    (rt (after (resizeWindow (scripted open_tabs 7%nat is_visible_size)
                  (mkDimensions (Some 800) None))
           (start (connected_session desktop_config))))
  = mkSize 800 768.
Proof.
  apply (resize_partial_update (scripted open_tabs 7%nat is_visible_size)
           (start (connected_session desktop_config)) 800);
    [reflexivity | reflexivity | lia | reflexivity].
Defined.

(** A width of 0 is a falsy operand of [||]: the resize completes and the
    width stays at 1024. *)
Lemma resize_zero_width_counterexample :
  let o := scripted open_tabs 7%nat never in
  let m := start (connected_session desktop_config) in
  cfg_headless (config (rt m)) = false
  /\ cfg_emulation (config (rt m)) = true
  /\ fst (resizeWindow o (mkDimensions (Some 0) None) m) = Normal tt
  /\ vs_width (viewportSize
                 (rt (after (resizeWindow o (mkDimensions (Some 0) None)) m)))
     = 1024
  /\ vs_width (viewportSize
                 (rt (after (resizeWindow o (mkDimensions (Some 0) None)) m)))
     <> 0.
Proof. cbv zeta. repeat split; try reflexivity. discriminate. Qed.

(** C8.  On a headless session [resizeWindow] never calls the window
    manager, whatever the new dimensions and whatever the collaborators
    answer.  With emulation enabled and a client connected,
    [resizeWindow({height: h})] (such as [h = 600]) sets [viewportSize]
    to the current width and [h], and the first call it makes is the
    device-metrics override with the unchanged width, the height [h], the
    configured scale factor and mobile flag, and [fitWindow] false. *)
Theorem headless_resize_skips_os (o : Oracle) (m : Machine) :
  cfg_headless (config (rt m)) = true ->
  (forall nd ev, In ev (emitted (resizeWindow o nd) m) ->
                 is_os_resize (ev_call ev) = false)
  /\ forall (c : Client) (h : Z),
       cfg_emulation (config (rt m)) = true ->
       client (rt m) = Some c ->
       h <> 0 ->
       viewportSize
         (rt (after (resizeWindow o (mkDimensions None (Some h))) m))
         = mkSize (vs_width (viewportSize (rt m))) h
       /\ exists ok rest,
            emitted (resizeWindow o (mkDimensions None (Some h))) m
            = mkEvent (SetDeviceMetricsOverride c
                         (vs_width (viewportSize (rt m))) h
                         (cfg_scaleFactor (config (rt m)))
                         (cfg_mobile (config (rt m))) false) ok :: rest.
Proof.
  intros Hh.
  assert (Hos : forall nd, cfg_headless (config (rt m)) = false ->
                  rpc_reply o (log m) (os_resize_call nd (rt m)) = None)
    by (intros nd Hf; congruence).
  split.
  - intros nd ev Hin.
    destruct (setEmulationBounds_frame o (resized nd m)) as (_ & es & Hlog & Hes).
    assert (Hem : emitted (resizeWindow o nd) m = []
                  \/ emitted (resizeWindow o nd) m = es).
    { destruct (cfg_emulation (config (rt m))) eqn:He.
      - right. apply emitted_app. unfold after at 1.
        rewrite (resizeWindow_past_os o nd m (Hos nd)), He.
        fold (after (setEmulationBounds o) (resized nd m)).
        now rewrite Hlog, resized_headless_log.
      - left. apply emitted_app. unfold after.
        rewrite (resizeWindow_past_os o nd m (Hos nd)), He. cbn.
        now rewrite Hh, app_nil_r. }
    destruct Hem as [Hem|Hem]; rewrite Hem in Hin; [destruct Hin|].
    apply emulation_call_not_os_resize.
    rewrite Forall_forall in Hes. now apply Hes.
  - intros c h He Hc Hnz. split.
    + rewrite (resizeWindow_viewport o _ m (Hos _)).
      unfold target_size; cbn. now destruct (Z.eqb_spec h 0).
    + set (nd := mkDimensions None (Some h)).
      destruct (setEmulationBounds_first o (resized nd m) c Hc)
        as (ok & rest & Hlog).
      exists ok, rest. apply emitted_app. unfold after at 1.
      rewrite (resizeWindow_past_os o nd m (Hos nd)), He.
      fold (after (setEmulationBounds o) (resized nd m)).
      rewrite Hlog, resized_headless_log by assumption.
      unfold device_metrics_call, resized, target_size, nd. cbn.
      now destruct (Z.eqb_spec h 0).
Qed.

Lemma headless_resize_skips_os_witness :
  (forall nd ev,
      In ev (emitted (resizeWindow (scripted open_tabs 7%nat never) nd)
               (start (connected_session headless_config))) ->
      is_os_resize (ev_call ev) = false)
  /\ viewportSize
       (rt (after (resizeWindow (scripted open_tabs 7%nat never)
                     (mkDimensions None (Some 600)))
              (start (connected_session headless_config))))
     = mkSize 1280 600
  /\ exists ok rest,
       emitted (resizeWindow (scripted open_tabs 7%nat never)
                  (mkDimensions None (Some 600)))
         (start (connected_session headless_config))
       = mkEvent (SetDeviceMetricsOverride 7%nat 1280 600 2%Q true false) ok
           :: rest.
Proof.
  destruct (headless_resize_skips_os (scripted open_tabs 7%nat never)
              (start (connected_session headless_config)) eq_refl)
    as [Hnever Hpush].
  split; [exact Hnever|].
  apply (Hpush 7%nat 600); [reflexivity | reflexivity | lia].
Defined.

(** ** Frame lemmas: what the emulation and resize steps leave alone *)

Lemma same_session_refl (r : RuntimeInfo) : same_session r r.
Proof. now repeat split. Qed.

Lemma extends_refl (m : Machine) : extends m m.
Proof.
  split; [apply same_session_refl|]. exists []. now rewrite app_nil_r.
Qed.

Lemma extends_trans (m1 m2 m3 : Machine) :
  extends m1 m2 -> extends m2 m3 -> extends m1 m3.
Proof.
  intros [(Hb & Hp & Hc & Ht & Hcl) [es Hes]]
         [(Hb' & Hp' & Hc' & Ht' & Hcl') [es' Hes']].
  split.
  - repeat split; congruence.
  - exists (es ++ es'). now rewrite Hes', Hes, app_assoc.
Qed.

Lemma stable_ret {A} (a : A) : stable (ret a).
Proof. intros m. apply extends_refl. Qed.

Lemma stable_throw {A} (e : Exn) : stable (@throw A e).
Proof. intros m. apply extends_refl. Qed.

Lemma stable_get_rt : stable get_rt.
Proof. intros m. apply extends_refl. Qed.

Lemma stable_bind {A B} (c : Async A) (k : A -> Async B) :
  stable c -> (forall a, stable (k a)) -> stable (bind c k).
Proof.
  intros Hc Hk m. specialize (Hc m). unfold after, bind in *.
  destruct (c m) as [[a|e] m1]; cbn in *.
  - eapply extends_trans; [exact Hc | apply (Hk a m1)].
  - exact Hc.
Qed.

Lemma stable_await (o : Oracle) (c : Call) : stable (await o c).
Proof.
  intros m. unfold after, await.
  destruct (rpc_reply o (log m) c); cbn;
    (split; [apply same_session_refl | eexists; reflexivity]).
Qed.

Lemma stable_set_viewportSize (s : Size) :
  stable (modify_rt (set_viewportSize s)).
Proof.
  intros m. split; [now repeat split|]. exists []. cbn. now rewrite app_nil_r.
Qed.

Lemma stable_setEmulationBounds (o : Oracle) : stable (setEmulationBounds o).
Proof.
  unfold setEmulationBounds.
  apply stable_bind; [apply stable_get_rt|]. intros r.
  destruct (client r); [|apply stable_throw].
  apply stable_bind; [apply stable_await|]. intros _.
  apply stable_bind; [apply stable_get_rt|]. intros r'.
  apply stable_await.
Qed.

Lemma stable_resizeWindow (o : Oracle) (nd : Dimensions) :
  stable (resizeWindow o nd).
Proof.
  unfold resizeWindow.
  apply stable_bind; [apply stable_get_rt|]. intros r. cbv zeta.
  apply stable_bind.
  { destruct (negb _); [apply stable_await | apply stable_ret]. }
  intros _. apply stable_bind; [apply stable_set_viewportSize|]. intros _.
  destruct (cfg_emulation _); [apply stable_setEmulationBounds | apply stable_ret].
Qed.

Lemma stable_setEmulation (o : Oracle) : stable (setEmulation o).
Proof.
  unfold setEmulation.
  apply stable_bind; [apply stable_get_rt|]. intros r. cbv zeta.
  apply stable_bind.
  { destruct (cfg_userAgent _); [|apply stable_ret].
    destruct (client r); [apply stable_await | apply stable_throw]. }
  intros _. apply stable_bind.
  { destruct (cfg_touch _); [|apply stable_ret].
    destruct (client r); [apply stable_await | apply stable_throw]. }
  intros _. apply stable_resizeWindow.
Qed.

(** ** Normal completion of the resize and emulation steps *)

Lemma resizeWindow_normal
  (o : Oracle) (nd : Dimensions) (m m' : Machine) :
  resizeWindow o nd m = (Normal tt, m') ->
  viewportSize (rt m') = target_size nd (rt m).
Proof.
  intros Hrun.
  assert (Hos : cfg_headless (config (rt m)) = false ->
                rpc_reply o (log m) (os_resize_call nd (rt m)) = None).
  { intros Hh.
    destruct (rpc_reply o (log m) (os_resize_call nd (rt m))) as [e|] eqn:Hr;
      [|reflexivity].
    rewrite (resizeWindow_os_rejected o nd m e Hh Hr) in Hrun. discriminate. }
  pose proof (resizeWindow_viewport o nd m Hos) as Hvp.
  unfold after in Hvp. rewrite Hrun in Hvp. cbn in Hvp. now rewrite Hvp.
Qed.

Lemma bind_normal {A B} (c : Async A) (k : A -> Async B)
      (m m' : Machine) (b : B) :
  bind c k m = (Normal b, m') ->
  exists a m1, c m = (Normal a, m1) /\ k a m1 = (Normal b, m').
Proof.
  unfold bind. destruct (c m) as [[a|e] m1]; [eauto | discriminate].
Qed.

Lemma setEmulation_normal (o : Oracle) (m m' : Machine) :
  setEmulation o m = (Normal tt, m') ->
  viewportSize (rt m') =
    target_size (mkDimensions (Some (cfg_width (config (rt m))))
                              (Some (cfg_height (config (rt m))))) (rt m).
Proof.
  unfold setEmulation. intros Hrun.
  apply bind_normal in Hrun as (r & m0 & Hget & Hrun).
  unfold get_rt in Hget. injection Hget as <- <-. cbv zeta in Hrun.
  apply bind_normal in Hrun as ([] & m1 & Hua & Hrun).
  apply bind_normal in Hrun as ([] & m2 & Htouch & Hrun).
  apply resizeWindow_normal in Hrun. rewrite Hrun.
  assert (H1 : rt m1 = rt m).
  { destruct (cfg_userAgent _); [|now injection Hua as <-].
    destruct (client (rt m)); [|discriminate]. unfold await in Hua.
    destruct (rpc_reply _ _ _); [discriminate|]. now injection Hua as <-. }
  assert (H2 : rt m2 = rt m1).
  { destruct (cfg_touch _); [|now injection Htouch as <-].
    destruct (client (rt m)); [|discriminate]. unfold await in Htouch.
    destruct (rpc_reply _ _ _); [discriminate|]. now injection Htouch as <-. }
  now rewrite H2, H1.
Qed.

(** ** [createClient], branch by branch *)

Lemma createClient_no_tab (o : Oracle) (m : Machine) (tabs : list Tab) :
  listTabs_reply o (log m) (cdpPort (rt m)) = inr tabs ->
  select_tab (browserId (rt m)) tabs = None ->
  createClient o m = (Normal tt, mkMachine (rt m) (listed m)).
Proof.
  intros Hl Hs.
  unfold createClient, getActiveTab, bind, get_rt, await_listTabs, ret.
  cbn. now rewrite Hl, Hs.
Qed.

Lemma createClient_connect_rejected
  (o : Oracle) (m : Machine) (tabs : list Tab) (t : Tab) (e : Exn) :
  listTabs_reply o (log m) (cdpPort (rt m)) = inr tabs ->
  select_tab (browserId (rt m)) tabs = Some t ->
  connect_reply o (listed m) t (cdpPort (rt m)) = inl e ->
  createClient o m =
    (Normal tt,
     mkMachine (rt m) (listed m ++ [rejected (Connect t (cdpPort (rt m)))])).
Proof.
  intros Hl Hs Hc.
  unfold createClient, getActiveTab, try_catch, bind, get_rt,
    await_listTabs, await_connect, ret.
  cbn. rewrite Hl, Hs. cbn. unfold listed in Hc. now rewrite Hc.
Qed.

Lemma createClient_connected
  (o : Oracle) (m : Machine) (tabs : list Tab) (t : Tab) (c : Client) :
  listTabs_reply o (log m) (cdpPort (rt m)) = inr tabs ->
  select_tab (browserId (rt m)) tabs = Some t ->
  connect_reply o (listed m) t (cdpPort (rt m)) = inr c ->
  createClient o m =
    enable_and_emulate o c (cfg_emulation (config (rt m))) (recorded t c m).
Proof.
  intros Hl Hs Hc.
  unfold createClient, enable_and_emulate, getActiveTab, try_catch, bind at 1 2 3 4 5 6,
    get_rt, await_listTabs, await_connect, modify_rt, ret.
  cbn -[setEmulation await bind]. rewrite Hl, Hs.
  cbn -[setEmulation await bind]. unfold listed in Hc. rewrite Hc.
  reflexivity.
Qed.

(** A rejected [Page.enable] leaves the channel recorded. *)
Lemma enable_and_emulate_page_rejected
  (o : Oracle) (c : Client) (b : bool) (m : Machine) (e : Exn) :
  rpc_reply o (log m) (PageEnable c) = Some e ->
  enable_and_emulate o c b m =
    (Throw e, mkMachine (rt m) (log m ++ [rejected (PageEnable c)])).
Proof.
  intros Hr. unfold enable_and_emulate, bind.
  now rewrite (await_rejected o _ m e Hr).
Qed.

(** Normal completion means that both domains were enabled, in order. *)
Lemma enable_and_emulate_normal
  (o : Oracle) (c : Client) (b : bool) (m m' : Machine) :
  enable_and_emulate o c b m = (Normal tt, m') ->
  exists rest,
    log m' = log m ++ [resolved (PageEnable c); resolved (NetworkEnable c)]
                   ++ rest
    /\ same_session (rt m) (rt m')
    /\ (b = true ->
        viewportSize (rt m') =
          target_size (mkDimensions (Some (cfg_width (config (rt m))))
                                    (Some (cfg_height (config (rt m)))))
                      (rt m)).
Proof.
  unfold enable_and_emulate. intros Hrun.
  apply bind_normal in Hrun as ([] & m1 & Hpage & Hrun).
  apply bind_normal in Hrun as ([] & m2 & Hnet & Hrun).
  unfold await in Hpage, Hnet.
  destruct (rpc_reply o (log m) (PageEnable c)); [discriminate|].
  injection Hpage as <-. cbn in Hnet.
  destruct (rpc_reply o _ (NetworkEnable c)); [discriminate|].
  injection Hnet as <-.
  destruct b.
  - match type of Hrun with
    | setEmulation o ?M = _ =>
        pose proof (stable_setEmulation o M) as [Hsame [es Hes]]
    end.
    pose proof (setEmulation_normal o _ _ Hrun) as Hvp.
    unfold after in Hsame, Hes. rewrite Hrun in Hsame, Hes. cbn in *.
    exists es. split; [|split; [exact Hsame | intros _; exact Hvp]].
    rewrite Hes, <- !app_assoc. reflexivity.
  - injection Hrun as <-. exists []. cbn.
    split; [|split; [apply same_session_refl | discriminate]].
    now rewrite <- app_assoc.
Qed.

(** If [createClient] returns normally having set a client that was not
    there, it went through every step of the connecting branch. *)
Lemma createClient_inv (o : Oracle) (m m' : Machine) (c : Client) :
  client (rt m) = None ->
  createClient o m = (Normal tt, m') ->
  client (rt m') = Some c ->
  exists tabs t,
    listTabs_reply o (log m) (cdpPort (rt m)) = inr tabs
    /\ select_tab (browserId (rt m)) tabs = Some t
    /\ connect_reply o (listed m) t (cdpPort (rt m)) = inr c
    /\ enable_and_emulate o c (cfg_emulation (config (rt m))) (recorded t c m)
       = (Normal tt, m').
Proof.
  intros Hnone Hrun Hc.
  destruct (listTabs_reply o (log m) (cdpPort (rt m))) as [e|tabs] eqn:Hl.
  { unfold createClient, getActiveTab, bind, get_rt, await_listTabs in Hrun.
    cbn in Hrun. rewrite Hl in Hrun. discriminate. }
  destruct (select_tab (browserId (rt m)) tabs) as [t|] eqn:Hs.
  2:{ rewrite (createClient_no_tab o m tabs Hl Hs) in Hrun.
      injection Hrun as <-. cbn in Hc. congruence. }
  destruct (connect_reply o (listed m) t (cdpPort (rt m))) as [e|c0] eqn:Hcon.
  { rewrite (createClient_connect_rejected o m tabs t e Hl Hs Hcon) in Hrun.
    injection Hrun as <-. cbn in Hc. congruence. }
  rewrite (createClient_connected o m tabs t c0 Hl Hs Hcon) in Hrun.
  destruct (enable_and_emulate_normal o c0 _ _ _ Hrun)
    as (rest & _ & (_ & _ & _ & _ & Hcl) & _).
  cbn in Hcl. assert (c0 = c) by congruence. subst c0.
  exists tabs, t. auto.
Qed.

(** ** Channel establishment *)

(** C4.  When the page list is obtained, a page of the session is found
    and the connection attempt raises, whatever the exception,
    [createClient] completes normally: nothing is raised to its caller,
    and the [client] and [tab] fields are what they were, so a session
    without a channel is still without one. *)
Theorem negotiation_failure_is_contained
  (o : Oracle) (m : Machine) (tabs : list Tab) (t : Tab) (e : Exn) :
  listTabs_reply o (log m) (cdpPort (rt m)) = inr tabs ->
  select_tab (browserId (rt m)) tabs = Some t ->
  connect_reply o (listed m) t (cdpPort (rt m)) = inl e ->
  fst (createClient o m) = Normal tt
  /\ client (rt (after (createClient o) m)) = client (rt m)
  /\ tab (rt (after (createClient o) m)) = tab (rt m).
Proof.
  intros Hl Hs Hc. unfold after.
  rewrite (createClient_connect_rejected o m tabs t e Hl Hs Hc).
  now repeat split.
Qed.

Lemma negotiation_failure_is_contained_witness :
  fst (createClient (unreachable open_tabs)
         (start (fresh_session desktop_config))) = Normal tt
  /\ client (rt (after (createClient (unreachable open_tabs))
                   (start (fresh_session desktop_config)))) = None
  /\ tab (rt (after (createClient (unreachable open_tabs))
                (start (fresh_session desktop_config)))) = None.
Proof.
  apply (negotiation_failure_is_contained (unreachable open_tabs)
           (start (fresh_session desktop_config)) open_tabs session_tab
           (Rejected "connect ECONNREFUSED")); reflexivity.
Defined.

(** C10.  When the page list is obtained and either no page of the
    session is listed or the connection attempt raises, [createClient]
    completes normally with the runtime object exactly as it was, and the
    only calls made are the listing and, in the second case, the rejected
    connection attempt: no domain is enabled, no emulation setting is
    sent and the window is not resized. *)
Theorem failed_connect_is_atomic
  (o : Oracle) (m : Machine) (tabs : list Tab) :
  listTabs_reply o (log m) (cdpPort (rt m)) = inr tabs ->
  select_tab (browserId (rt m)) tabs = None
  \/ (exists t e, select_tab (browserId (rt m)) tabs = Some t
                  /\ connect_reply o (listed m) t (cdpPort (rt m)) = inl e) ->
  fst (createClient o m) = Normal tt
  /\ rt (after (createClient o) m) = rt m
  /\ (emitted (createClient o) m = [resolved (ListTabs (cdpPort (rt m)))]
      \/ exists t,
           emitted (createClient o) m =
           [resolved (ListTabs (cdpPort (rt m)));
            rejected (Connect t (cdpPort (rt m)))])
  /\ forall ev, In ev (emitted (createClient o) m) ->
                is_domain_enable (ev_call ev) = false
                /\ is_emulation_call (ev_call ev) = false
                /\ is_os_resize (ev_call ev) = false.
Proof.
  intros Hl [Hs | (t & e & Hs & Hc)].
  - pose proof (createClient_no_tab o m tabs Hl Hs) as Hrun.
    assert (Hem : emitted (createClient o) m
                  = [resolved (ListTabs (cdpPort (rt m)))]).
    { apply emitted_app. unfold after. now rewrite Hrun. }
    split; [now rewrite Hrun|].
    split; [unfold after; now rewrite Hrun|].
    split; [now left|].
    intros ev Hin. rewrite Hem in Hin.
    destruct Hin as [<-|[]]. now repeat split.
  - pose proof (createClient_connect_rejected o m tabs t e Hl Hs Hc) as Hrun.
    assert (Hem : emitted (createClient o) m
                  = [resolved (ListTabs (cdpPort (rt m)));
                     rejected (Connect t (cdpPort (rt m)))]).
    { apply emitted_app. unfold after. rewrite Hrun. cbn.
      unfold listed. now rewrite <- app_assoc. }
    split; [now rewrite Hrun|].
    split; [unfold after; now rewrite Hrun|].
    split; [right; now exists t|].
    intros ev Hin. rewrite Hem in Hin.
    destruct Hin as [<-|[<-|[]]]; now repeat split.
Qed.

Lemma failed_connect_is_atomic_witness :
  fst (createClient (scripted [worker_tab; foreign_tab] 7%nat never)
         (start (fresh_session headless_config))) = Normal tt
  /\ rt (after (createClient (scripted [worker_tab; foreign_tab] 7%nat never))
           (start (fresh_session headless_config)))
     = fresh_session headless_config.
Proof.
  destruct (failed_connect_is_atomic
              (scripted [worker_tab; foreign_tab] 7%nat never)
              (start (fresh_session headless_config))
              [worker_tab; foreign_tab] eq_refl (or_introl eq_refl))
    as (Hnormal & Hrt & _).
  split; [exact Hnormal | exact Hrt].
Defined.

(** A rejected [Network.enable] leaves the channel recorded too. *)
Lemma enable_and_emulate_network_rejected
  (o : Oracle) (c : Client) (b : bool) (m : Machine) (e : Exn) :
  rpc_reply o (log m) (PageEnable c) = None ->
  rpc_reply o (log m ++ [resolved (PageEnable c)]) (NetworkEnable c) = Some e ->
  enable_and_emulate o c b m =
    (Throw e,
     mkMachine (rt m)
       (log m ++ [resolved (PageEnable c); rejected (NetworkEnable c)])).
Proof.
  intros Hpage Hnet. unfold enable_and_emulate, bind.
  rewrite (await_resolved o _ m Hpage).
  rewrite (await_rejected o _ (mkMachine (rt m) _) e Hnet). cbn.
  now rewrite <- app_assoc.
Qed.

(** C5, as amended.  [createClient] records the channel in the runtime
    object first and enables the domains afterwards.  If it returns
    normally having set a client on a session that had none, then after
    the listing and the connection it has enabled the page domain and then
    the network domain, both successfully, before anything else.  If
    enabling a domain raises, be it the page domain or, after the page
    domain was enabled, the network domain, the exception reaches the
    caller and the tab and the client stay recorded. *)
Theorem domains_enabled_after_channel_recorded (o : Oracle) (m : Machine) :
  (forall m' c,
      client (rt m) = None ->
      createClient o m = (Normal tt, m') ->
      client (rt m') = Some c ->
      exists t rest,
        tab (rt m') = Some t
        /\ log m' = log m ++ [resolved (ListTabs (cdpPort (rt m)));
                              resolved (Connect t (cdpPort (rt m)));
                              resolved (PageEnable c);
                              resolved (NetworkEnable c)] ++ rest)
  /\ (forall tabs t c e,
         listTabs_reply o (log m) (cdpPort (rt m)) = inr tabs ->
         select_tab (browserId (rt m)) tabs = Some t ->
         connect_reply o (listed m) t (cdpPort (rt m)) = inr c ->
         rpc_reply o (negotiated t m) (PageEnable c) = Some e ->
         createClient o m =
           (Throw e,
            mkMachine (set_client c (set_tab t (rt m)))
                      (negotiated t m ++ [rejected (PageEnable c)])))
  /\ (forall tabs t c e,
         listTabs_reply o (log m) (cdpPort (rt m)) = inr tabs ->
         select_tab (browserId (rt m)) tabs = Some t ->
         connect_reply o (listed m) t (cdpPort (rt m)) = inr c ->
         rpc_reply o (negotiated t m) (PageEnable c) = None ->
         rpc_reply o (negotiated t m ++ [resolved (PageEnable c)])
                   (NetworkEnable c) = Some e ->
         createClient o m =
           (Throw e,
            mkMachine (set_client c (set_tab t (rt m)))
                      (negotiated t m ++ [resolved (PageEnable c);
                                          rejected (NetworkEnable c)]))).
Proof.
  split; [|split].
  - intros m' c Hnone Hrun Hc.
    destruct (createClient_inv o m m' c Hnone Hrun Hc)
      as (tabs & t & _ & _ & _ & Hrest).
    destruct (enable_and_emulate_normal o c _ _ _ Hrest)
      as (rest & Hlog & (_ & _ & _ & Ht & _) & _).
    exists t, rest. split.
    + rewrite Ht. reflexivity.
    + rewrite Hlog. cbn. unfold negotiated, listed.
      now rewrite <- !app_assoc.
  - intros tabs t c e Hl Hs Hc Hr.
    rewrite (createClient_connected o m tabs t c Hl Hs Hc).
    now rewrite (enable_and_emulate_page_rejected o c _ (recorded t c m) e Hr).
  - intros tabs t c e Hl Hs Hc Hpage Hnet.
    rewrite (createClient_connected o m tabs t c Hl Hs Hc).
    now rewrite (enable_and_emulate_network_rejected o c _ (recorded t c m) e
                   Hpage Hnet).
Qed.

Lemma domains_enabled_after_channel_recorded_witness :
  (exists t rest,
      tab (rt (after (createClient (scripted open_tabs 7%nat never))
                 (start (fresh_session desktop_config)))) = Some t
      /\ log (after (createClient (scripted open_tabs 7%nat never))
                (start (fresh_session desktop_config)))
         = [] ++ [resolved (ListTabs 9222); resolved (Connect t 9222);
                  resolved (PageEnable 7%nat); resolved (NetworkEnable 7%nat)]
              ++ rest)
  /\ createClient (scripted open_tabs 7%nat is_page_enable)
       (start (fresh_session desktop_config))
     = (Throw (Rejected "call failed"),
        mkMachine (set_client 7%nat
                     (set_tab session_tab (fresh_session desktop_config)))
                  [resolved (ListTabs 9222); resolved (Connect session_tab 9222);
                   rejected (PageEnable 7%nat)])
  /\ createClient (scripted open_tabs 7%nat is_network_enable)
       (start (fresh_session desktop_config))
     = (Throw (Rejected "call failed"),
        mkMachine (set_client 7%nat
                     (set_tab session_tab (fresh_session desktop_config)))
                  [resolved (ListTabs 9222); resolved (Connect session_tab 9222);
                   resolved (PageEnable 7%nat);
                   rejected (NetworkEnable 7%nat)]).
Proof.
  split; [|split].
  - apply (proj1 (domains_enabled_after_channel_recorded
                    (scripted open_tabs 7%nat never)
                    (start (fresh_session desktop_config)))
             (after (createClient (scripted open_tabs 7%nat never))
                (start (fresh_session desktop_config))) 7%nat);
      reflexivity.
  - apply (proj1 (proj2 (domains_enabled_after_channel_recorded
                           (scripted open_tabs 7%nat is_page_enable)
                           (start (fresh_session desktop_config))))
             open_tabs session_tab 7%nat (Rejected "call failed"));
      reflexivity.
  - apply (proj2 (proj2 (domains_enabled_after_channel_recorded
                           (scripted open_tabs 7%nat is_network_enable)
                           (start (fresh_session desktop_config))))
             open_tabs session_tab 7%nat (Rejected "call failed"));
      reflexivity.
Defined.

(** The channel is set in the runtime object although no domain has been
    enabled: [Page.enable] was rejected and [Network.enable] never sent. *)
Lemma channel_set_before_domains_counterexample :
  let o := scripted open_tabs 7%nat is_page_enable in
  let m := start (fresh_session desktop_config) in
  client (rt m) = None
  /\ client (rt (after (createClient o) m)) = Some 7%nat
  /\ emitted (createClient o) m
     = [resolved (ListTabs 9222); resolved (Connect session_tab 9222);
        rejected (PageEnable 7%nat)]
  /\ ~ (exists ev, In ev (log (after (createClient o) m))
                   /\ is_domain_enable (ev_call ev) = true
                   /\ ev_ok ev = true).
Proof.
  cbv zeta. repeat split; try reflexivity.
  intros (ev & Hin & Hcall & Hok). vm_compute in Hin.
  destruct Hin as [<-|[<-|[<-|[]]]]; discriminate.
Qed.

(** ** The resize scenario *)

(** C1.  Take a session configured with width 1024, height 768, not
    headless, emulation enabled, scale factor 1 and not mobile, on which
    [createClient] has returned normally and set the client [c], and
    collaborators that reject no call.  After the connection
    [viewportSize] is 1024x768.  [resizeWindow({width: 800})] then
    returns normally, leaves [viewportSize] at 800x768, and makes exactly
    three calls, in this order: the window-manager resize from (1024,
    768) to (800, 768), the device-metrics override with width 800,
    height 768, scale factor 1, mobile false and fitWindow false, and the
    visible-size override with 800x768. *)
Theorem connect_then_resize_width
  (o : Oracle) (m0 m1 : Machine) (c : Client)
  (touch : option bool) (ua : option string) :
  config (rt m0) = mkConfig 1024 768 false true 1%Q false touch ua ->
  client (rt m0) = None ->
  createClient o m0 = (Normal tt, m1) ->
  client (rt m1) = Some c ->
  cooperative o ->
  viewportSize (rt m1) = mkSize 1024 768
  /\ resizeWindow o (mkDimensions (Some 800) None) m1 =
       (Normal tt,
        mkMachine
          (set_viewportSize (mkSize 800 768) (rt m1))
          (log m1 ++
           [resolved (BrowserToolsResize (browserId (rt m0)) 1024 768 800 768);
            resolved (SetDeviceMetricsOverride c 800 768 1%Q false false);
            resolved (SetVisibleSize c 800 768)])).
Proof.
  intros Hcfg Hnone Hrun Hc Hco.
  destruct (createClient_inv o m0 m1 c Hnone Hrun Hc)
    as (tabs & t & _ & _ & _ & Hrest).
  destruct (enable_and_emulate_normal o c _ _ _ Hrest)
    as (rest & _ & (Hbid & _ & Hcfg1 & _ & _) & Hvp).
  cbn in Hbid, Hcfg1, Hvp. rewrite Hcfg in Hcfg1, Hvp.
  specialize (Hvp eq_refl). unfold target_size in Hvp. cbn in Hvp.
  split; [exact Hvp|].
  set (nd := mkDimensions (Some 800) None).
  rewrite (resizeWindow_past_os o nd m1 (fun _ => Hco _ _)).
  rewrite Hcfg1. cbn [cfg_emulation].
  rewrite (setEmulationBounds_resolved o (resized nd m1) c Hco Hc).
  unfold resized, device_metrics_call, visible_size_call, os_resize_call,
    target_size, nd.
  cbn. rewrite Hcfg1, Hvp, Hbid. cbn. now rewrite <- app_assoc.
Qed.

Lemma connect_then_resize_width_witness :
  viewportSize
    (rt (after (createClient (scripted open_tabs 7%nat never))
           (start (fresh_session desktop_config))))
  = mkSize 1024 768
  /\ resizeWindow (scripted open_tabs 7%nat never)
       (mkDimensions (Some 800) None)
       (after (createClient (scripted open_tabs 7%nat never))
          (start (fresh_session desktop_config)))
     = (Normal tt,
        mkMachine
          (set_viewportSize (mkSize 800 768)
             (rt (after (createClient (scripted open_tabs 7%nat never))
                    (start (fresh_session desktop_config)))))
          (log (after (createClient (scripted open_tabs 7%nat never))
                  (start (fresh_session desktop_config))) ++
           [resolved (BrowserToolsResize "rJx7" 1024 768 800 768);
            resolved (SetDeviceMetricsOverride 7%nat 800 768 1%Q false false);
            resolved (SetVisibleSize 7%nat 800 768)])).
Proof.
  apply (connect_then_resize_width (scripted open_tabs 7%nat never)
           (start (fresh_session desktop_config))
           (after (createClient (scripted open_tabs 7%nat never))
              (start (fresh_session desktop_config)))
           7%nat None None);
    [reflexivity | reflexivity | reflexivity | reflexivity
    | intros h call; reflexivity].
Defined.

(** ** Rules of the program logic *)

Lemma leads_weaken {A} (P P' Q Q' : Machine -> Prop) (c : Async A) :
  (forall m, P' m -> P m) -> (forall m, Q m -> Q' m) ->
  leads P Q c -> leads P' Q' c.
Proof. intros HP HQ Hc m Hm. apply HQ, Hc, HP, Hm. Qed.

Lemma leads_ret {A} (P : Machine -> Prop) (a : A) : leads P P (ret a).
Proof. intros m Hm. exact Hm. Qed.

Lemma leads_throw {A} (P : Machine -> Prop) (e : Exn) :
  leads P P (@throw A e).
Proof. intros m Hm. exact Hm. Qed.

Lemma leads_bind {A B} (P R Q : Machine -> Prop)
      (c : Async A) (k : A -> Async B) :
  leads P R c -> (forall m, R m -> Q m) -> (forall a, leads R Q (k a)) ->
  leads P Q (bind c k).
Proof.
  intros Hc HRQ Hk m Hm. specialize (Hc m Hm). unfold after, bind in *.
  destruct (c m) as [[a|e] m1]; cbn in *.
  - apply (Hk a m1 Hc).
  - apply HRQ, Hc.
Qed.

Lemma leads_bind_get {B} (P Q : Machine -> Prop)
      (k : RuntimeInfo -> Async B) :
  (forall r, leads (fun m => P m /\ rt m = r) Q (k r)) ->
  leads P Q (bind get_rt k).
Proof. intros Hk m Hm. apply (Hk (rt m) m). now split. Qed.

Lemma leads_try_catch {A} (P R Q : Machine -> Prop)
      (c : Async A) (h : Exn -> Async A) :
  leads P R c -> (forall m, R m -> Q m) -> (forall e, leads R Q (h e)) ->
  leads P Q (try_catch c h).
Proof.
  intros Hc HRQ Hh m Hm. specialize (Hc m Hm). unfold after, try_catch in *.
  destruct (c m) as [[a|e] m1]; cbn in *.
  - apply HRQ, Hc.
  - apply (Hh e m1 Hc).
Qed.

Section Tracking.

Variable o : Oracle.
Variable I : RuntimeInfo -> Prop.
Variable allowed : Call -> Prop.
Variable base : list Event.

Lemma tracked_push (m : Machine) (c : Call) (ok : bool) :
  tracked I allowed base m -> allowed c ->
  tracked I allowed base (mkMachine (rt m) (log m ++ [mkEvent c ok])).
Proof.
  intros [HI (es & Hes & Hall)] Hc. split; [exact HI|].
  exists (es ++ [mkEvent c ok]). cbn. split.
  - now rewrite Hes, app_assoc.
  - apply Forall_app. split; [exact Hall | now constructor].
Qed.

Lemma tracked_update (m : Machine) (r : RuntimeInfo) :
  tracked I allowed base m -> I r ->
  tracked I allowed base (mkMachine r (log m)).
Proof. intros [_ Hlog] Hr. now split. Qed.

Lemma tracked_at_await (r : RuntimeInfo) (c : Call) :
  (I r -> allowed c) ->
  leads (tracked_at I allowed base r) (tracked_at I allowed base r)
        (await o c).
Proof.
  intros Hc m [Hm <-]. unfold after, await.
  assert (Hal : allowed c) by (apply Hc, Hm).
  destruct (rpc_reply o (log m) c); cbn;
    (split; [now apply tracked_push | reflexivity]).
Qed.

Lemma tracked_setEmulationBounds (m : Machine) :
  tracked I allowed base m ->
  (forall c, client (rt m) = Some c ->
             allowed (device_metrics_call c (rt m))
             /\ allowed (visible_size_call c (rt m))) ->
  tracked I allowed base (after (setEmulationBounds o) m).
Proof.
  intros Hm Hcalls.
  unfold after, setEmulationBounds, bind, get_rt, throw, await. cbn.
  destruct (client (rt m)) as [c|]; [|exact Hm].
  destruct (Hcalls c eq_refl) as [Hdm Hvs].
  unfold device_metrics_call in Hdm. unfold visible_size_call in Hvs.
  destruct (rpc_reply o (log m) _); cbn.
  - now apply tracked_push.
  - destruct (rpc_reply o _ _); cbn;
      apply (tracked_push (mkMachine (rt m) _)); auto;
      now apply tracked_push.
Qed.

Lemma tracked_resizeWindow (nd : Dimensions) (m : Machine) :
  tracked I allowed base m ->
  resize_respects I allowed nd (rt m) ->
  tracked I allowed base (after (resizeWindow o nd) m).
Proof.
  intros Hm (Hvp & Hos & Hem).
  assert (Hresized :
            (cfg_headless (config (rt m)) = false ->
             rpc_reply o (log m) (os_resize_call nd (rt m)) = None) ->
            tracked I allowed base (after (resizeWindow o nd) m)).
  { intros Hreply. unfold after.
    rewrite (resizeWindow_past_os o nd m Hreply).
    assert (Hr : tracked I allowed base (resized nd m)).
    { unfold resized. destruct (cfg_headless (config (rt m))) eqn:Hh.
      - now apply tracked_update.
      - apply (tracked_update (mkMachine (rt m) _)); [|exact Hvp].
        apply tracked_push; auto. }
    destruct (cfg_emulation (config (rt m))) eqn:He; [|exact Hr].
    apply tracked_setEmulationBounds; [exact Hr|].
    intros c Hc. apply Hem; [reflexivity | exact Hc]. }
  destruct (cfg_headless (config (rt m))) eqn:Hh.
  - apply Hresized. discriminate.
  - destruct (rpc_reply o (log m) (os_resize_call nd (rt m))) as [e|] eqn:Hr.
    + unfold after.
      rewrite (resizeWindow_os_rejected o nd m e Hh Hr). cbn.
      apply tracked_push; auto.
    + apply Hresized. intros _. reflexivity.
Qed.

Lemma tracked_setEmulation (m : Machine) :
  tracked I allowed base m ->
  emulation_respects I allowed (rt m) ->
  tracked I allowed base (after (setEmulation o) m).
Proof.
  intros Hm (Hua & Htouch & Hres).
  assert (Hrun : leads (tracked_at I allowed base (rt m))
                       (tracked I allowed base) (setEmulation o)).
  { unfold setEmulation. apply leads_bind_get.
    intros r' m1 [[Hm1 Hr1] Hr']. subst r'. rewrite Hr1. cbv zeta.
    match goal with
    | |- tracked _ _ _ (after ?body m1) =>
        cut (leads (tracked_at I allowed base (rt m))
                   (tracked I allowed base) body)
    end.
    { intros Hbody. apply Hbody. now split. }
    apply leads_bind with (R := tracked_at I allowed base (rt m)).
    - destruct (cfg_userAgent (config (rt m))) as [ua|] eqn:Hcua;
        [|apply leads_ret].
      destruct (client (rt m)) as [c|] eqn:Hc; [|apply leads_throw].
      apply tracked_at_await. intros _. now apply Hua.
    - now intros m2 [Hm2 _].
    - intros _.
      apply leads_bind with (R := tracked_at I allowed base (rt m));
        [|now intros m2 [Hm2 _]|].
      + destruct (cfg_touch (config (rt m))) as [touch|] eqn:Hct;
          [|apply leads_ret].
        destruct (client (rt m)) as [c|] eqn:Hc; [|apply leads_throw].
        apply tracked_at_await. intros _. now apply Htouch.
      + intros _ m2 [Hm2 Hr2].
        apply tracked_resizeWindow; [exact Hm2|].
        rewrite Hr2. exact Hres. }
  apply Hrun. now split.
Qed.

Lemma createClient_listing_rejected (m : Machine) (e : Exn) :
  listTabs_reply o (log m) (cdpPort (rt m)) = inl e ->
  createClient o m =
    (Throw e,
     mkMachine (rt m) (log m ++ [rejected (ListTabs (cdpPort (rt m)))])).
Proof.
  intros Hl.
  unfold createClient, getActiveTab, bind, get_rt, await_listTabs.
  cbn. now rewrite Hl.
Qed.

Lemma tracked_enable_and_emulate (c : Client) (b : bool) (m : Machine) :
  tracked I allowed base m ->
  allowed (PageEnable c) -> allowed (NetworkEnable c) ->
  (b = true -> emulation_respects I allowed (rt m)) ->
  tracked I allowed base (after (enable_and_emulate o c b) m).
Proof.
  intros Hm Hpage Hnet Hem.
  unfold after, enable_and_emulate, bind, await.
  destruct (rpc_reply o (log m) (PageEnable c)); cbn.
  { now apply tracked_push. }
  destruct (rpc_reply o _ (NetworkEnable c)); cbn.
  { apply (tracked_push (mkMachine (rt m) _)); auto.
    now apply tracked_push. }
  assert (Hm2 : tracked I allowed base
                  (mkMachine (rt m)
                     ((log m ++ [resolved (PageEnable c)])
                        ++ [resolved (NetworkEnable c)]))).
  { apply (tracked_push (mkMachine (rt m) _)); auto.
    now apply tracked_push. }
  destruct b; [|exact Hm2].
  apply (tracked_setEmulation _ Hm2). apply Hem. reflexivity.
Qed.

Lemma tracked_createClient (m : Machine) :
  connect_respects I allowed ->
  tracked I allowed base m ->
  tracked I allowed base (after (createClient o) m).
Proof.
  intros (Hlist & Hconn & Hrec & Hen & Hemu) Hm.
  pose proof (proj1 Hm) as HI.
  destruct (listTabs_reply o (log m) (cdpPort (rt m))) as [e|tabs] eqn:Hl.
  { unfold after. rewrite (createClient_listing_rejected m e Hl). cbn.
    apply tracked_push; auto. }
  destruct (select_tab (browserId (rt m)) tabs) as [t|] eqn:Hs.
  2:{ unfold after. rewrite (createClient_no_tab o m tabs Hl Hs). cbn.
      apply tracked_push; auto. }
  destruct (connect_reply o (listed m) t (cdpPort (rt m))) as [e|c] eqn:Hc.
  { unfold after.
    rewrite (createClient_connect_rejected o m tabs t e Hl Hs Hc). cbn.
    apply (tracked_push (mkMachine (rt m) _)); auto.
    apply tracked_push; auto. }
  unfold after. rewrite (createClient_connected o m tabs t c Hl Hs Hc).
  apply tracked_enable_and_emulate; try apply Hen.
  - unfold recorded, negotiated, listed.
    apply (tracked_update (mkMachine (rt m) _)); [|now apply Hrec].
    apply (tracked_push (mkMachine (rt m) _)); auto.
    apply tracked_push; auto.
  - intros He. apply Hemu; [now apply Hrec | exact He].
Qed.

End Tracking.

Lemma tracked_start (I : RuntimeInfo -> Prop) (allowed : Call -> Prop)
      (m : Machine) :
  I (rt m) -> tracked I allowed (log m) m.
Proof.
  intros HI. split; [exact HI|]. exists []. now rewrite app_nil_r.
Qed.

Lemma tracked_emitted {A} (I : RuntimeInfo -> Prop) (allowed : Call -> Prop)
      (c : Async A) (m : Machine) :
  tracked I allowed (log m) (after c m) ->
  I (rt (after c m))
  /\ forall ev, In ev (emitted c m) -> allowed (ev_call ev).
Proof.
  intros [HI (es & Hes & Hall)]. split; [exact HI|].
  rewrite (emitted_app c m es Hes). now apply Forall_forall.
Qed.

Lemma or_num_idem (a : option Z) (d : Z) :
  or_num a (or_num a d) = or_num a d.
Proof. destruct a as [v|]; cbn; [|reflexivity]. now destruct (v =? 0). Qed.

Lemma or_num_keeps_nonzero (a : option Z) (d : Z) :
  d <> 0 -> or_num a d <> 0.
Proof.
  intros Hd. destruct a as [v|]; cbn; [|exact Hd].
  now destruct (Z.eqb_spec v 0).
Qed.

Ltac respects :=
  unfold connect_respects, emulation_respects, resize_respects;
  repeat match goal with
         | |- _ /\ _ => split
         | |- forall _, _ => intro
         end;
  cbn in *; try reflexivity; try congruence; auto.

(** ** Further properties of [createClient] *)

(** X1.  A rejected tab listing is not caught: [createClient] raises the
    same exception, leaves the runtime object as it was, and makes no
    other call, so no connection is attempted. *)
Theorem listing_failure_propagates (o : Oracle) (m : Machine) (e : Exn) :
  listTabs_reply o (log m) (cdpPort (rt m)) = inl e ->
  fst (createClient o m) = Throw e
  /\ rt (after (createClient o) m) = rt m
  /\ emitted (createClient o) m = [rejected (ListTabs (cdpPort (rt m)))].
Proof.
  intros Hl. pose proof (createClient_listing_rejected o m e Hl) as Hrun.
  split; [now rewrite Hrun|].
  split; [unfold after; now rewrite Hrun|].
  apply emitted_app. unfold after. now rewrite Hrun.
Qed.

Lemma listing_failure_propagates_witness :
  fst (createClient
         (mkOracle (fun _ _ => inl (Rejected "socket hang up"))
                   (fun _ _ _ => inr 7%nat) (fun _ _ => None))
         (start (fresh_session desktop_config)))
  = Throw (Rejected "socket hang up")
  /\ rt (after (createClient
                  (mkOracle (fun _ _ => inl (Rejected "socket hang up"))
                            (fun _ _ _ => inr 7%nat) (fun _ _ => None)))
           (start (fresh_session desktop_config)))
     = fresh_session desktop_config
  /\ emitted (createClient
                (mkOracle (fun _ _ => inl (Rejected "socket hang up"))
                          (fun _ _ _ => inr 7%nat) (fun _ _ => None)))
       (start (fresh_session desktop_config))
     = [rejected (ListTabs 9222)].
Proof.
  apply (listing_failure_propagates
           (mkOracle (fun _ _ => inl (Rejected "socket hang up"))
                     (fun _ _ _ => inr 7%nat) (fun _ _ => None))
           (start (fresh_session desktop_config))
           (Rejected "socket hang up")).
  reflexivity.
Defined.


(** X3.  On a session that has neither tab nor client, after
    [createClient], however it completed, [isHeadlessTab] is truthy
    exactly when a client has been recorded and the configuration is
    headless, and it is [undefined] exactly when no client has been
    recorded. *)
Theorem isHeadlessTab_after_createClient (o : Oracle) (m : Machine) :
  tab (rt m) = None ->
  client (rt m) = None ->
  (truthy (isHeadlessTab (rt (after (createClient o) m))) = true <->
   (exists c, client (rt (after (createClient o) m)) = Some c)
   /\ cfg_headless (config (rt m)) = true)
  /\ (isHeadlessTab (rt (after (createClient o) m)) = Undefined <->
      client (rt (after (createClient o) m)) = None).
Proof.
  intros Ht Hc.
  destruct (tracked_emitted
              (fun r => config r = config (rt m)
                        /\ ((tab r = None /\ client r = None)
                            \/ exists t c, tab r = Some t /\ client r = Some c))
              (fun _ => True) (createClient o) m) as [[Hcfg Hlink] _].
  { apply tracked_createClient.
    - respects; try tauto. right. eauto.
    - apply tracked_start. auto. }
  unfold isHeadlessTab. rewrite Hcfg.
  destruct Hlink as [[-> ->] | (t & c & -> & ->)]; cbn.
  - repeat split; try discriminate; auto.
    intros [[c Hc'] _]. discriminate.
  - repeat split; try discriminate; eauto. tauto.
Qed.

Lemma isHeadlessTab_after_createClient_witness :
  truthy (isHeadlessTab
            (rt (after (createClient (scripted open_tabs 7%nat is_visible_size))
                   (start (fresh_session headless_config))))) = true.
Proof.
  apply (proj1 (isHeadlessTab_after_createClient
                  (scripted open_tabs 7%nat is_visible_size)
                  (start (fresh_session headless_config))
                  eq_refl eq_refl)).
  split; [exists 7%nat; reflexivity | reflexivity].
Defined.

(** X4.  Neither [createClient] nor [resizeWindow] ever changes the
    session marker, the port or the configuration of the runtime
    object, whatever the collaborators answer. *)
Theorem session_identity_is_kept
  (o : Oracle) (nd : Dimensions) (m : Machine) :
  (browserId (rt (after (createClient o) m)) = browserId (rt m)
   /\ cdpPort (rt (after (createClient o) m)) = cdpPort (rt m)
   /\ config (rt (after (createClient o) m)) = config (rt m))
  /\ (browserId (rt (after (resizeWindow o nd) m)) = browserId (rt m)
      /\ cdpPort (rt (after (resizeWindow o nd) m)) = cdpPort (rt m)
      /\ config (rt (after (resizeWindow o nd) m)) = config (rt m)).
Proof.
  split.
  - apply (tracked_emitted
             (fun r => browserId r = browserId (rt m)
                       /\ cdpPort r = cdpPort (rt m)
                       /\ config r = config (rt m))
             (fun _ => True) (createClient o) m).
    apply tracked_createClient.
    + respects; tauto.
    + apply tracked_start. auto.
  - destruct (stable_resizeWindow o nd m) as [(Hb & Hp & Hc & _) _]. auto.
Qed.

(** X5.  On a headless session [createClient] never calls the window
    manager, whatever the collaborators answer: the initial resize made
    by [setEmulation] skips it as well. *)
Theorem headless_connect_skips_os (o : Oracle) (m : Machine) :
  cfg_headless (config (rt m)) = true ->
  forall ev, In ev (emitted (createClient o) m) ->
             is_os_resize (ev_call ev) = false.
Proof.
  intros Hh.
  apply (tracked_emitted (fun r => cfg_headless (config r) = true)
           (fun c => is_os_resize c = false) (createClient o) m).
  apply tracked_createClient.
  - respects.
  - now apply tracked_start.
Qed.

Lemma headless_connect_skips_os_witness :
  forallb (fun ev => negb (is_os_resize (ev_call ev)))
    (emitted (createClient (scripted open_tabs 7%nat never))
       (start (fresh_session headless_config))) = true.
Proof.
  apply forallb_forall. intros ev Hin.
  rewrite (headless_connect_skips_os (scripted open_tabs 7%nat never)
             (start (fresh_session headless_config)) eq_refl ev Hin).
  reflexivity.
Defined.

(** X6.  With emulation disabled [createClient] leaves [viewportSize]
    alone and sends neither an emulation call nor a window-manager
    resize, and [resizeWindow] sends no emulation call, whatever the
    collaborators answer. *)
Theorem no_emulation_when_disabled
  (o : Oracle) (nd : Dimensions) (m : Machine) :
  cfg_emulation (config (rt m)) = false ->
  viewportSize (rt (after (createClient o) m)) = viewportSize (rt m)
  /\ (forall ev, In ev (emitted (createClient o) m) ->
                 is_emulation_call (ev_call ev) = false
                 /\ is_os_resize (ev_call ev) = false)
  /\ (forall ev, In ev (emitted (resizeWindow o nd) m) ->
                 is_emulation_call (ev_call ev) = false).
Proof.
  intros He.
  destruct (tracked_emitted
              (fun r => cfg_emulation (config r) = false
                        /\ viewportSize r = viewportSize (rt m))
              (fun c => is_emulation_call c = false /\ is_os_resize c = false)
              (createClient o) m) as [[_ Hvp] Hcalls].
  { apply tracked_createClient.
    - respects; destruct H; congruence.
    - apply tracked_start. auto. }
  split; [exact Hvp|]. split; [exact Hcalls|].
  apply (tracked_emitted (fun r => cfg_emulation (config r) = false)
           (fun c => is_emulation_call c = false) (resizeWindow o nd) m).
  apply tracked_resizeWindow.
  - now apply tracked_start.
  - respects.
Qed.

Lemma no_emulation_when_disabled_witness :
  viewportSize
    (rt (after (createClient (scripted open_tabs 7%nat never))
           (start (fresh_session
                     (mkConfig 1024 768 false false 1%Q false None None)))))
  = mkSize 1296 1000.
Proof.
  apply (no_emulation_when_disabled (scripted open_tabs 7%nat never)
           (mkDimensions None None)
           (start (fresh_session
                     (mkConfig 1024 768 false false 1%Q false None None)))).
  reflexivity.
Defined.

(** X7.  Every emulation call made by [createClient] or by
    [resizeWindow] carries the values of the configuration: a
    device-metrics override has the configured scale factor and mobile
    flag and [fitWindow] false, a touch setting has [config.touch] and
    the profile "mobile" or "desktop" chosen by [config.mobile], and a
    user-agent override is sent only with the configured user agent. *)
Theorem emulation_calls_follow_config
  (o : Oracle) (nd : Dimensions) (m : Machine) (ev : Event) :
  In ev (emitted (createClient o) m) \/ In ev (emitted (resizeWindow o nd) m) ->
  configured_call (config (rt m)) (ev_call ev).
Proof.
  intros [Hin | Hin]; revert ev Hin.
  - apply (tracked_emitted (fun r => config r = config (rt m))
             (configured_call (config (rt m))) (createClient o) m).
    apply tracked_createClient.
    + respects; rewrite H in *; auto.
    + now apply tracked_start.
  - apply (tracked_emitted (fun r => config r = config (rt m))
             (configured_call (config (rt m))) (resizeWindow o nd) m).
    apply tracked_resizeWindow.
    + now apply tracked_start.
    + respects.
Qed.

Lemma emulation_calls_follow_config_witness :
  configured_call headless_config
    (SetTouchEmulationEnabled 7%nat true "mobile").
Proof.
  apply (emulation_calls_follow_config (scripted open_tabs 7%nat never)
           (mkDimensions None None)
           (start (fresh_session headless_config))
           (resolved (SetTouchEmulationEnabled 7%nat true "mobile"))).
  left. vm_compute. tauto.
Defined.

(** X8.  A [viewportSize] whose width and height are both other than 0
    stays so through [resizeWindow], whatever the new dimensions, and
    through [createClient]: no dimension can be set to 0. *)
Theorem viewport_stays_nonzero
  (o : Oracle) (nd : Dimensions) (m : Machine) :
  nonzero (viewportSize (rt m)) ->
  nonzero (viewportSize (rt (after (resizeWindow o nd) m)))
  /\ nonzero (viewportSize (rt (after (createClient o) m))).
Proof.
  intros Hnz. split.
  - apply (tracked_emitted (fun r => nonzero (viewportSize r))
             (fun _ => True) (resizeWindow o nd) m).
    apply tracked_resizeWindow.
    + now apply tracked_start.
    + respects. split; apply or_num_keeps_nonzero; apply Hnz.
  - apply (tracked_emitted (fun r => nonzero (viewportSize r))
             (fun _ => True) (createClient o) m).
    apply tracked_createClient.
    + respects. destruct H. split; apply or_num_keeps_nonzero; assumption.
    + now apply tracked_start.
Qed.

Lemma viewport_stays_nonzero_witness :
  nonzero (viewportSize
             (rt (after (resizeWindow (scripted open_tabs 7%nat never)
                           (mkDimensions (Some 0) (Some 0)))
                    (start (connected_session desktop_config)))))
  /\ nonzero (viewportSize
                (rt (after (createClient (scripted open_tabs 7%nat never))
                       (start (connected_session desktop_config))))).
Proof.
  apply (viewport_stays_nonzero (scripted open_tabs 7%nat never)
           (mkDimensions (Some 0) (Some 0))
           (start (connected_session desktop_config))).
  split; discriminate.
Defined.

(** X9.  After [createClient], however it completed, [viewportSize] is
    either what it was or the configured size, where a configured width
    or height of 0 stands for the current one.  In particular a
    dimension configured as 0 is never changed by [createClient]. *)
Theorem viewport_after_createClient (o : Oracle) (m : Machine) :
  (viewportSize (rt (after (createClient o) m)) = viewportSize (rt m)
   \/ viewportSize (rt (after (createClient o) m))
      = target_size (config_dimensions (config (rt m))) (rt m))
  /\ (cfg_width (config (rt m)) = 0 ->
      vs_width (viewportSize (rt (after (createClient o) m)))
      = vs_width (viewportSize (rt m)))
  /\ (cfg_height (config (rt m)) = 0 ->
      vs_height (viewportSize (rt (after (createClient o) m)))
      = vs_height (viewportSize (rt m))).
Proof.
  assert (Hcases :
            viewportSize (rt (after (createClient o) m)) = viewportSize (rt m)
            \/ viewportSize (rt (after (createClient o) m))
               = target_size (config_dimensions (config (rt m))) (rt m)).
  { apply (tracked_emitted
             (fun r => config r = config (rt m)
                       /\ (viewportSize r = viewportSize (rt m)
                           \/ viewportSize r
                              = target_size
                                  (config_dimensions (config (rt m))) (rt m)))
             (fun _ => True) (createClient o) m).
    apply tracked_createClient.
    - respects; try tauto. destruct H as [Hcfg [Hvp | Hvp]]; right.
      + unfold target_size. cbn. now rewrite Hcfg, Hvp.
      + unfold target_size. cbn. rewrite Hcfg, Hvp. cbn.
        destruct (cfg_width (config (rt m)) =? 0),
                 (cfg_height (config (rt m)) =? 0); reflexivity.
    - apply tracked_start. auto. }
  split; [exact Hcases|].
  split; intros Hz; destruct Hcases as [-> | ->]; try reflexivity;
    unfold target_size; cbn; now rewrite Hz.
Qed.

Lemma viewport_after_createClient_witness :
  vs_width
    (viewportSize
       (rt (after (createClient (scripted open_tabs 7%nat never))
              (start (fresh_session
                        (mkConfig 0 600 true true 1%Q false None None))))))
  = 1296.
Proof.
  apply (proj1 (proj2 (viewport_after_createClient
                         (scripted open_tabs 7%nat never)
                         (start (fresh_session
                                   (mkConfig 0 600 true true 1%Q false
                                             None None)))))).
  reflexivity.
Defined.

(** ** Further properties of [resizeWindow] and [setEmulation] *)

Lemma cooperative_os (o : Oracle) (nd : Dimensions) (m : Machine) :
  cooperative o ->
  cfg_headless (config (rt m)) = false ->
  rpc_reply o (log m) (os_resize_call nd (rt m)) = None.
Proof. intros Hco _. apply Hco. Qed.

(** X10.  With collaborators that reject no call, partial resizes
    compose: a width-only resize followed by a height-only resize leaves
    the same [viewportSize] as one resize with both, and repeating a
    resize does not change [viewportSize] further. *)
Theorem resize_composes
  (o : Oracle) (m : Machine) (w h : option Z) (nd : Dimensions) :
  cooperative o ->
  viewportSize
    (rt (after (resizeWindow o (mkDimensions None h))
           (after (resizeWindow o (mkDimensions w None)) m)))
  = viewportSize (rt (after (resizeWindow o (mkDimensions w h)) m))
  /\ viewportSize
       (rt (after (resizeWindow o nd) (after (resizeWindow o nd) m)))
     = viewportSize (rt (after (resizeWindow o nd) m)).
Proof.
  intros Hco. split.
  - rewrite (resizeWindow_viewport o (mkDimensions None h) _
               (cooperative_os o _ _ Hco)).
    rewrite (resizeWindow_viewport o (mkDimensions w None) m
               (cooperative_os o _ _ Hco)).
    rewrite (resizeWindow_viewport o (mkDimensions w h) m
               (cooperative_os o _ _ Hco)).
    reflexivity.
  - rewrite (resizeWindow_viewport o nd _ (cooperative_os o _ _ Hco)).
    rewrite (resizeWindow_viewport o nd m (cooperative_os o _ _ Hco)).
    unfold target_size. cbn. now rewrite !or_num_idem.
Qed.

Lemma resize_composes_witness :
  viewportSize
    (rt (after (resizeWindow (scripted open_tabs 7%nat never)
                  (mkDimensions None (Some 600)))
           (after (resizeWindow (scripted open_tabs 7%nat never)
                     (mkDimensions (Some 800) None))
              (start (connected_session desktop_config)))))
  = viewportSize
      (rt (after (resizeWindow (scripted open_tabs 7%nat never)
                    (mkDimensions (Some 800) (Some 600)))
             (start (connected_session desktop_config)))).
Proof.
  apply (proj1 (resize_composes (scripted open_tabs 7%nat never)
                  (start (connected_session desktop_config))
                  (Some 800) (Some 600) (mkDimensions None None)
                  (fun h call => eq_refl))).
Defined.

(** X11.  [resizeWindow] on a session with emulation enabled but no
    client (a resize before the connection): once the window-manager
    call, if any, has resolved, [viewportSize] is set to the new
    dimensions and then a [TypeError] is raised, without any emulation
    call. *)
Theorem resize_without_client (o : Oracle) (nd : Dimensions) (m : Machine) :
  cfg_emulation (config (rt m)) = true ->
  client (rt m) = None ->
  (cfg_headless (config (rt m)) = false ->
   rpc_reply o (log m) (os_resize_call nd (rt m)) = None) ->
  fst (resizeWindow o nd m) = Throw (undefined_property "Emulation")
  /\ viewportSize (rt (after (resizeWindow o nd) m)) = target_size nd (rt m)
  /\ emitted (resizeWindow o nd) m
     = (if cfg_headless (config (rt m)) then []
        else [resolved (os_resize_call nd (rt m))]).
Proof.
  intros He Hc Hos.
  assert (Hrun : resizeWindow o nd m
                 = (Throw (undefined_property "Emulation"), resized nd m)).
  { rewrite (resizeWindow_past_os o nd m Hos), He.
    unfold setEmulationBounds, bind, get_rt, throw. cbn. now rewrite Hc. }
  split; [now rewrite Hrun|].
  split; [unfold after; now rewrite Hrun|].
  apply emitted_app. unfold after. rewrite Hrun. cbn.
  destruct (cfg_headless (config (rt m))); [now rewrite app_nil_r | reflexivity].
Qed.

Lemma resize_without_client_witness :
  fst (resizeWindow (scripted open_tabs 7%nat never)
         (mkDimensions (Some 800) None)
         (start (fresh_session desktop_config)))
  = Throw (undefined_property "Emulation")
  /\ viewportSize
       (rt (after (resizeWindow (scripted open_tabs 7%nat never)
                     (mkDimensions (Some 800) None))
              (start (fresh_session desktop_config))))
     = mkSize 800 1000
  /\ emitted (resizeWindow (scripted open_tabs 7%nat never)
                (mkDimensions (Some 800) None))
       (start (fresh_session desktop_config))
     = [resolved (BrowserToolsResize "rJx7" 1296 1000 800 1000)].
Proof.
  apply (resize_without_client (scripted open_tabs 7%nat never)
           (mkDimensions (Some 800) None)
           (start (fresh_session desktop_config)));
    [reflexivity | reflexivity | intros _; reflexivity].
Defined.





Lemma resizeWindow_cooperative
  (o : Oracle) (nd : Dimensions) (m : Machine) (c : Client) :
  cooperative o ->
  client (rt m) = Some c ->
  resizeWindow o nd m =
    (Normal tt,
     mkMachine (set_viewportSize (target_size nd (rt m)) (rt m))
               (log m ++ map resolved (resize_script nd (rt m)))).
Proof.
  intros Hco Hc.
  rewrite (resizeWindow_past_os o nd m (cooperative_os o nd m Hco)).
  unfold resize_script. rewrite Hc.
  destruct (cfg_emulation (config (rt m))).
  - rewrite (setEmulationBounds_resolved o (resized nd m) c Hco Hc).
    unfold resized. cbn.
    destruct (cfg_headless (config (rt m))); cbn;
      now rewrite <- ?app_assoc.
  - unfold ret, resized.
    destruct (cfg_headless (config (rt m))); cbn;
      now rewrite ?app_nil_r.
Qed.

Lemma setEmulation_cooperative (o : Oracle) (m : Machine) (c : Client) :
  cooperative o ->
  client (rt m) = Some c ->
  setEmulation o m =
    (Normal tt,
     mkMachine
       (set_viewportSize
          (target_size (config_dimensions (config (rt m))) (rt m)) (rt m))
       (log m ++
        map resolved
          (emulation_preamble c (config (rt m))
           ++ resize_script (config_dimensions (config (rt m))) (rt m)))).
Proof.
  intros Hco Hc.
  unfold setEmulation, emulation_preamble, bind at 1 2 3, get_rt, await, ret.
  cbn -[resizeWindow]. rewrite Hc.
  fold (config_dimensions (config (rt m))).
  destruct (cfg_userAgent (config (rt m))), (cfg_touch (config (rt m)));
    rewrite ?Hco; cbn -[resizeWindow]; rewrite ?Hco; cbn -[resizeWindow];
    match goal with
    | |- context [resizeWindow o ?nd ?M] =>
        rewrite (resizeWindow_cooperative o nd M c Hco Hc)
    end; cbn; rewrite ?map_app, <- ?app_assoc; reflexivity.
Qed.


(** X13.  With collaborators that reject no call and a client set,
    [setEmulation] applies the configuration in a fixed order: the
    user-agent override if a user agent is configured, then the touch
    setting if one is configured, then the calls of the resize to the
    configured dimensions.  It returns normally, and each dimension of
    [viewportSize] is then the configured one, or the current one where
    the configured dimension is 0; so with a configured width and height
    other than 0, [viewportSize] is exactly the configured size. *)
Theorem setEmulation_order (o : Oracle) (m : Machine) (c : Client) :
  cooperative o ->
  client (rt m) = Some c ->
  setEmulation o m =
    (Normal tt,
     mkMachine
       (set_viewportSize
          (target_size (config_dimensions (config (rt m))) (rt m)) (rt m))
       (log m ++
        map resolved
          (emulation_preamble c (config (rt m))
           ++ resize_script (config_dimensions (config (rt m))) (rt m))))
  /\ vs_width (viewportSize (rt (after (setEmulation o) m)))
     = (if cfg_width (config (rt m)) =? 0
        then vs_width (viewportSize (rt m))
        else cfg_width (config (rt m)))
  /\ vs_height (viewportSize (rt (after (setEmulation o) m)))
     = (if cfg_height (config (rt m)) =? 0
        then vs_height (viewportSize (rt m))
        else cfg_height (config (rt m)))
  /\ (cfg_width (config (rt m)) <> 0 ->
      cfg_height (config (rt m)) <> 0 ->
      viewportSize (rt (after (setEmulation o) m))
      = mkSize (cfg_width (config (rt m))) (cfg_height (config (rt m)))).
Proof.
  intros Hco Hc.
  pose proof (setEmulation_cooperative o m c Hco Hc) as Hrun.
  split; [exact Hrun|].
  unfold after. rewrite Hrun. cbn.
  split; [reflexivity|]. split; [reflexivity|].
  intros Hw Hh. unfold target_size. cbn.
  destruct (Z.eqb_spec (cfg_width (config (rt m))) 0); [contradiction|].
  destruct (Z.eqb_spec (cfg_height (config (rt m))) 0); [contradiction|].
  reflexivity.
Qed.

Lemma setEmulation_order_witness :
  setEmulation (scripted open_tabs 7%nat never)
    (start (connected_session headless_config))
  = (Normal tt,
     mkMachine (connected_session headless_config)
       [resolved (SetUserAgentOverride 7%nat "Mozilla/5.0 (test)");
        resolved (SetTouchEmulationEnabled 7%nat true "mobile");
        resolved (SetDeviceMetricsOverride 7%nat 1280 800 2%Q true false);
        resolved (SetVisibleSize 7%nat 1280 800)])
  /\ vs_width
       (viewportSize
          (rt (after (setEmulation (scripted open_tabs 7%nat never))
                 (start (mkRuntimeInfo "rJx7" 9222
                           (mkConfig 0 600 true true 1%Q false None None)
                           (Some session_tab) (Some 7%nat)
                           (mkSize 1296 1000))))))
     = 1296
  /\ vs_height
       (viewportSize
          (rt (after (setEmulation (scripted open_tabs 7%nat never))
                 (start (mkRuntimeInfo "rJx7" 9222
                           (mkConfig 0 600 true true 1%Q false None None)
                           (Some session_tab) (Some 7%nat)
                           (mkSize 1296 1000))))))
     = 600.
Proof.
  split.
  - apply (proj1 (setEmulation_order (scripted open_tabs 7%nat never)
                    (start (connected_session headless_config)) 7%nat
                    (fun h call => eq_refl) eq_refl)).
  - destruct (setEmulation_order (scripted open_tabs 7%nat never)
                (start (mkRuntimeInfo "rJx7" 9222
                          (mkConfig 0 600 true true 1%Q false None None)
                          (Some session_tab) (Some 7%nat)
                          (mkSize 1296 1000)))
                7%nat (fun h call => eq_refl) eq_refl)
      as (_ & Hw & Hh & _).
    exact (conj Hw Hh).
Defined.

(** ** Tab resolution with an empty marker *)

(** X14.  An empty session marker is contained in every address, so
    [getActiveTab] then selects the first listed target of type "page",
    whatever its address. *)
Theorem empty_marker_selects_first_page (tabs : list Tab) :
  select_tab "" tabs = hd_error (filter is_page_type tabs).
Proof.
  unfold select_tab. f_equal. apply filter_ext. intros t.
  unfold is_session_page, is_page_type, indexOf.
  destruct (tab_url t); cbn; apply andb_true_r.
Qed.

(** ** The whole connection *)

Lemma createClient_cooperative
  (o : Oracle) (m : Machine) (tabs : list Tab) (t : Tab) (c : Client) :
  cooperative o ->
  listTabs_reply o (log m) (cdpPort (rt m)) = inr tabs ->
  select_tab (browserId (rt m)) tabs = Some t ->
  connect_reply o (listed m) t (cdpPort (rt m)) = inr c ->
  let r := set_client c (set_tab t (rt m)) in
  let nd := config_dimensions (config (rt m)) in
  createClient o m =
    (Normal tt,
     mkMachine
       (if cfg_emulation (config (rt m))
        then set_viewportSize (target_size nd r) r else r)
       (log m ++
        map resolved
          ([ListTabs (cdpPort (rt m)); Connect t (cdpPort (rt m));
            PageEnable c; NetworkEnable c]
           ++ (if cfg_emulation (config (rt m))
               then emulation_preamble c (config (rt m)) ++ resize_script nd r
               else [])))).
Proof.
  intros Hco Hl Hs Hc r nd.
  rewrite (createClient_connected o m tabs t c Hl Hs Hc).
  unfold enable_and_emulate, bind, await. rewrite ?Hco. cbn -[setEmulation].
  rewrite ?Hco. cbn -[setEmulation].
  destruct (cfg_emulation (config (rt m))).
  - match goal with
    | |- setEmulation o ?M = _ =>
        rewrite (setEmulation_cooperative o M c Hco eq_refl)
    end.
    cbn. unfold negotiated, listed. cbn.
    rewrite <- !app_assoc. reflexivity.
  - unfold ret, negotiated, listed. cbn. rewrite <- !app_assoc. reflexivity.
Qed.

(** X15.  With collaborators that reject no call, a listing that holds
    a page of the session and a connection that succeeds,
    [createClient] returns normally with the tab and the client
    recorded, after exactly these calls in this order: the listing, the
    connection to the first matching page, [Page.enable],
    [Network.enable] and, with emulation enabled, the calls of
    [setEmulation].  With emulation enabled each dimension of
    [viewportSize] is then the configured one, or the current one where
    the configured dimension is 0; with emulation disabled
    [viewportSize] is left alone. *)
Theorem createClient_order
  (o : Oracle) (m : Machine) (tabs : list Tab) (t : Tab) (c : Client) :
  cooperative o ->
  listTabs_reply o (log m) (cdpPort (rt m)) = inr tabs ->
  select_tab (browserId (rt m)) tabs = Some t ->
  connect_reply o (listed m) t (cdpPort (rt m)) = inr c ->
  fst (createClient o m) = Normal tt
  /\ tab (rt (after (createClient o) m)) = Some t
  /\ client (rt (after (createClient o) m)) = Some c
  /\ rt (after (createClient o) m)
     = set_viewportSize (viewportSize (rt (after (createClient o) m)))
         (set_client c (set_tab t (rt m)))
  /\ emitted (createClient o) m
     = map resolved
         ([ListTabs (cdpPort (rt m)); Connect t (cdpPort (rt m));
           PageEnable c; NetworkEnable c]
          ++ (if cfg_emulation (config (rt m))
              then emulation_preamble c (config (rt m))
                   ++ resize_script (config_dimensions (config (rt m)))
                        (set_client c (set_tab t (rt m)))
              else []))
  /\ vs_width (viewportSize (rt (after (createClient o) m)))
     = (if cfg_emulation (config (rt m)) && negb (cfg_width (config (rt m)) =? 0)
        then cfg_width (config (rt m))
        else vs_width (viewportSize (rt m)))
  /\ vs_height (viewportSize (rt (after (createClient o) m)))
     = (if cfg_emulation (config (rt m)) && negb (cfg_height (config (rt m)) =? 0)
        then cfg_height (config (rt m))
        else vs_height (viewportSize (rt m))).
Proof.
  intros Hco Hl Hs Hc.
  pose proof (createClient_cooperative o m tabs t c Hco Hl Hs Hc) as Hrun.
  cbv zeta in Hrun.
  split; [now rewrite Hrun|].
  assert (Hem : emitted (createClient o) m
                = map resolved
                    ([ListTabs (cdpPort (rt m)); Connect t (cdpPort (rt m));
                      PageEnable c; NetworkEnable c]
                     ++ (if cfg_emulation (config (rt m))
                         then emulation_preamble c (config (rt m))
                              ++ resize_script
                                   (config_dimensions (config (rt m)))
                                   (set_client c (set_tab t (rt m)))
                         else []))).
  { apply emitted_app. unfold after. now rewrite Hrun. }
  unfold after. rewrite Hrun. cbn [snd rt].
  destruct (cfg_emulation (config (rt m))); cbn;
    repeat split; try exact Hem;
    try (destruct (cfg_width (config (rt m)) =? 0); reflexivity);
    try (destruct (cfg_height (config (rt m)) =? 0); reflexivity).
Qed.

Lemma createClient_order_witness :
  fst (createClient (scripted open_tabs 7%nat never)
         (start (fresh_session headless_config))) = Normal tt
  /\ tab (rt (after (createClient (scripted open_tabs 7%nat never))
                (start (fresh_session headless_config)))) = Some session_tab
  /\ client (rt (after (createClient (scripted open_tabs 7%nat never))
                   (start (fresh_session headless_config)))) = Some 7%nat
  /\ rt (after (createClient (scripted open_tabs 7%nat never))
           (start (fresh_session headless_config)))
     = mkRuntimeInfo "rJx7" 9222 headless_config (Some session_tab)
                     (Some 7%nat) (mkSize 1280 800)
  /\ emitted (createClient (scripted open_tabs 7%nat never))
       (start (fresh_session headless_config))
     = [resolved (ListTabs 9222); resolved (Connect session_tab 9222);
        resolved (PageEnable 7%nat); resolved (NetworkEnable 7%nat);
        resolved (SetUserAgentOverride 7%nat "Mozilla/5.0 (test)");
        resolved (SetTouchEmulationEnabled 7%nat true "mobile");
        resolved (SetDeviceMetricsOverride 7%nat 1280 800 2%Q true false);
        resolved (SetVisibleSize 7%nat 1280 800)]
  /\ vs_width
       (viewportSize
          (rt (after (createClient (scripted open_tabs 7%nat never))
                 (start (fresh_session headless_config))))) = 1280
  /\ vs_height
       (viewportSize
          (rt (after (createClient (scripted open_tabs 7%nat never))
                 (start (fresh_session headless_config))))) = 800.
Proof.
  apply (createClient_order (scripted open_tabs 7%nat never)
           (start (fresh_session headless_config)) open_tabs session_tab
           7%nat (fun h call => eq_refl) eq_refl eq_refl eq_refl).
Defined.

(** ** Capture and teardown *)



(** X17.  After a [createClient] that returned normally and recorded a
    client on a session that had none, [closeTab] asks the endpoint of
    the session to close the page that tab resolution chose: the first
    listed page of type "page" whose address contains the marker. *)
Theorem closeTab_after_connect
  (o : Oracle) (io : IoOracle) (m m' : Machine) (c : Client)
  (l : list IoEvent) :
  client (rt m) = None ->
  createClient o m = (Normal tt, m') ->
  client (rt m') = Some c ->
  exists tabs t ok,
    listTabs_reply o (log m) (cdpPort (rt m)) = inr tabs
    /\ first_such (session_page (browserId (rt m))) tabs t
    /\ snd (closeTab io (rt m') l)
       = l ++ [mkIoEvent (CloseTab (tab_id t) (cdpPort (rt m))) ok].
Proof.
  intros Hnone Hrun Hc.
  destruct (createClient_inv o m m' c Hnone Hrun Hc)
    as (tabs & t & Hl & Hs & _ & Hrest).
  destruct (enable_and_emulate_normal o c _ _ _ Hrest)
    as (_ & _ & (_ & Hport & _ & Htab & _) & _).
  cbn in Hport, Htab.
  exists tabs, t.
  unfold closeTab. rewrite Htab, Hport.
  destruct (closeTab_reply io l (tab_id t) (cdpPort (rt m)));
    [exists false | exists true];
    (split; [exact Hl|]); (split; [now apply select_tab_some | reflexivity]).
Qed.

Lemma closeTab_after_connect_witness :
  exists tabs t ok,
    listTabs_reply (scripted open_tabs 7%nat never) [] 9222 = inr tabs
    /\ first_such (session_page "rJx7") tabs t
    /\ snd (closeTab (io_scripted (Some (Rejected "No such target id: P1"))
                        (inr "iVBORw0KGgo=") None)
              (rt (after (createClient (scripted open_tabs 7%nat never))
                     (start (fresh_session desktop_config)))) [])
       = [] ++ [mkIoEvent (CloseTab (tab_id t) 9222) ok].
Proof.
  apply (closeTab_after_connect (scripted open_tabs 7%nat never)
           (io_scripted (Some (Rejected "No such target id: P1"))
                        (inr "iVBORw0KGgo=") None)
           (start (fresh_session desktop_config))
           (after (createClient (scripted open_tabs 7%nat never))
              (start (fresh_session desktop_config)))
           7%nat []); reflexivity.
Defined.


